(** * Lead scoring and contact categorisation of the Telegram BD manager

    A shallow embedding of the lead-scoring engine of the repository
    ([_calculate_lead_score], the contact categories and the hot-leads
    query of the BD analytics agent), and the properties its
    specification states about them.

    Numbers.  Python's [int] is [Z].  Python's [float] is read in two
    ways.  The function is first embedded over exact rationals ([Q]): the
    specification speaks of real numbers, every constant of the code
    (0.4, 0.3, 1.0, 100, 70) is a decimal, and the properties are about
    thresholds, weights and bounds; equality of scores is [Qeq] (written
    [==]).  It is embedded a second time over IEEE-754 binary64 (module
    [Binary64], Rocq's primitive floats), the arithmetic Python runs; the
    worked values are evaluated there, and the properties that do not
    depend on the monotonicity of rounding are proved there as well.

    Errors.  Python's true division raises [ZeroDivisionError] on a zero
    divisor; fallible code lives in the small error monad [Py.result].
    The excerpts of the function never bind [total_messages]: what the
    engine does for a contact with no classified message is not in the
    sources, and is modelled apart, from the specification (module
    [Guarded]).

    Around the engine.  The other code of the repository is embedded as
    well: the outreach tiers and the custom category of the guides, the
    BD analytics agent with the response it renders (module [Agent]), the
    event loop of the test notebook (module [Notebook]) and the startup
    script (module [Startup]). *)

From Stdlib Require Import ZArith QArith Qminmax Lqa Lia Bool String List.
From Stdlib Require Import Floats Uint63.
From Stdlib Require Import Ascii DecimalString.
Import ListNotations.

#[local] Set Warnings "-inexact-float".

Local Open Scope Q_scope.

(** ** Python built-ins used by the source *)

Module Py.

Inductive exn : Type :=
| ZeroDivisionError.

Inductive result (A : Type) : Type :=
| Ok (value : A)
| Raise (e : exn).

Arguments Ok {A} value.
Arguments Raise {A} e.

Definition bind {A B : Type} (r : result A) (k : A -> result B) : result B :=
  match r with
  | Ok a => k a
  | Raise e => Raise e
  end.

(** [a < b] on numbers. *)
Definition ltb (a b : Q) : bool :=
  match a ?= b with
  | Lt => true
  | _ => false
  end.

(** [a >= b] on numbers. *)
Definition geb (a b : Q) : bool := negb (ltb a b).

(** [min(a, b)]: the first argument is kept unless the second is
    strictly smaller. *)
Definition min (a b : Q) : Q := if ltb b a then b else a.

(** [max(a, b)]: the first argument is kept unless the second is
    strictly greater. *)
Definition max (a b : Q) : Q := if ltb a b then b else a.

(** [a / b] on two [int]s: true division, [ZeroDivisionError] when the
    divisor is zero. *)
Definition truediv (a b : Z) : result Q :=
  if (b =? 0)%Z then Raise ZeroDivisionError
  else Ok (inject_Z a / inject_Z b).

End Py.

Notation "x <- r ;; k" := (Py.bind r (fun x => k))
  (at level 61, r at next level, right associativity).

(** ** The scoring function

    The source (README_CRM_FEATURES.md, "Custom Lead Scoring"; the same
    body in SYSTEM_STATUS.md):
<<
    def _calculate_lead_score(self, message_count: int, avg_sentiment: float,
                            positive_messages: int, negative_messages: int) -> float:
        message_score = min(message_count / 100, 0.4)  # 40% weight
        sentiment_score = max(0, avg_sentiment) * 0.3  # 30% weight
        engagement_score = (positive_messages / total_messages) * 0.3  # 30% weight
        return min(message_score + sentiment_score + engagement_score, 1.0)
>>
    The three local variables are definitions of their own, so that the
    sub-scores can be named in statements. *)

(** Modelled from the spec: the binding of [total_messages], which the
    excerpt of the function uses and does not show.  The specification
    gives it: "total_sentiment_classified_messages =
    positive_message_count + negative_message_count".  The same sentence
    of the specification goes on with a guard for a denominator of 0,
    of which the excerpt shows nothing either: the guarded reading is
    [Guarded.engagement_score] below, and the statements about
    [_calculate_lead_score] are about inputs with
    [positive_messages + negative_messages <> 0], where the two
    readings agree. *)
Definition total_messages (positive_messages negative_messages : Z) : Z :=
  (positive_messages + negative_messages)%Z.

(** [message_score = min(message_count / 100, 0.4)]; the divisor is the
    literal 100, so this division cannot raise. *)
Definition message_score (message_count : Z) : Q :=
  Py.min (inject_Z message_count / 100) 0.4.

(** [sentiment_score = max(0, avg_sentiment) * 0.3] *)
Definition sentiment_score (avg_sentiment : Q) : Q :=
  Py.max 0 avg_sentiment * 0.3.

(** [engagement_score = (positive_messages / total_messages) * 0.3] *)
Definition engagement_score (positive_messages negative_messages : Z)
  : Py.result Q :=
  ratio <- Py.truediv positive_messages
             (total_messages positive_messages negative_messages) ;;
  Py.Ok (ratio * 0.3).

Definition _calculate_lead_score
  (message_count : Z) (avg_sentiment : Q)
  (positive_messages negative_messages : Z) : Py.result Q :=
  let message_score := message_score message_count in
  let sentiment_score := sentiment_score avg_sentiment in
  engagement_score <- engagement_score positive_messages negative_messages ;;
  Py.Ok (Py.min (message_score + sentiment_score + engagement_score) 1.0).

(** ** Contact categories

    The source (README_CRM_FEATURES.md, "Contact Categorization"):
<<
    - High-Value Lead: >50 messages, positive sentiment
    - Active Contact: >20 messages, positive sentiment
    - Regular Contact: >10 messages
    - Positive Contact: High sentiment regardless of message count
    - Contact: Default category
>>
    and the signature [_categorize_contact(self, message_count: int,
    avg_sentiment: float) -> str] of core/data_manager.py. *)

Inductive Category : Type :=
| HighValueLead
| ActiveContact
| RegularContact
| PositiveContact
| Contact.

Definition category_label (c : Category) : string :=
  match c with
  | HighValueLead => "High-Value Lead"
  | ActiveContact => "Active Contact"
  | RegularContact => "Regular Contact"
  | PositiveContact => "Positive Contact"
  | Contact => "Contact"
  end.

(** The tier of a category: its place in the rule table read from the
    bottom, so that a higher tier is a rule of higher priority. *)
Definition tier (c : Category) : nat :=
  match c with
  | Contact => 0
  | PositiveContact => 1
  | RegularContact => 2
  | ActiveContact => 3
  | HighValueLead => 4
  end.

Section Categorisation.

(** The cutoff above which a sentiment is "high" for the Positive
    Contact rule; neither the source nor the specification fixes it
    ("a configurable positive threshold"). *)
Variable positive_threshold : Q.

(** Modelled from the spec: the body of [_categorize_contact], of which
    the sources hold the rule list above and the signature only.  The
    specification's table is that list, "evaluated top to bottom, first
    match wins". *)
Definition _categorize_contact (message_count : Z) (avg_sentiment : Q)
  : Category :=
  if (50 <? message_count)%Z && Py.ltb 0 avg_sentiment then HighValueLead
  else if (20 <? message_count)%Z && Py.ltb 0 avg_sentiment then ActiveContact
  else if (10 <? message_count)%Z then RegularContact
  else if Py.ltb positive_threshold avg_sentiment then PositiveContact
  else Contact.

End Categorisation.

(** ** The data model of the specification *)

Record ContactAggregate : Type := {
  identifier : Z;
  message_count : Z;
  positive_message_count : Z;
  negative_message_count : Z;
  average_sentiment : Q
}.

Record LeadScore : Type := {
  score : Q;
  category : Category
}.


(** [compute_score], the specification's name for the engine: the score
    of [_calculate_lead_score] and the category of [_categorize_contact]
    on the fields of the aggregate. *)
Definition compute_score (positive_threshold : Q) (a : ContactAggregate)
  : Py.result LeadScore :=
  s <- _calculate_lead_score (message_count a) (average_sentiment a)
         (positive_message_count a) (negative_message_count a) ;;
  Py.Ok {| score := s;
           category := _categorize_contact positive_threshold
                         (message_count a) (average_sentiment a) |}.

(** An aggregate from its fields, for the worked scenarios. *)
Definition scenario (id message_count positive negative : Z)
  (average_sentiment : Q) : ContactAggregate :=
  {| identifier := id;
     message_count := message_count;
     positive_message_count := positive;
     negative_message_count := negative;
     average_sentiment := average_sentiment |}.

(** ** The formulas as the specification words them

    These follow the specification's sentences, not the source; they are
    what the source is compared with. *)

Module Spec.

(** "Engagement sub-score = min(message_count / 100, 1.0)" *)
Definition engagement (message_count : Z) : Q :=
  Qmin (inject_Z message_count / 100) 1.

(** "... weighted 0.4": what the sub-score adds to the total. *)
Definition engagement_contribution (message_count : Z) : Q :=
  0.4 * engagement message_count.

(** "Sentiment sub-score = max(0.0, average_sentiment)" *)
Definition sentiment (average_sentiment : Q) : Q :=
  Qmax 0 average_sentiment.

(** "Engagement-ratio sub-score = positive_message_count /
    total_sentiment_classified_messages ...; if that denominator is 0,
    this sub-score is 0" *)
Definition ratio (positive negative : Z) : Q :=
  if (positive + negative =? 0)%Z then 0
  else inject_Z positive / inject_Z (positive + negative).

Definition clamp (x lo hi : Q) : Q := Qmax lo (Qmin x hi).

(** "score = clamp(0.4 * engagement + 0.3 * sentiment + 0.3 * ratio,
    0.0, 1.0)" *)
Definition score (message_count : Z) (average_sentiment : Q)
  (positive negative : Z) : Q :=
  clamp (0.4 * engagement message_count
         + 0.3 * sentiment average_sentiment
         + 0.3 * ratio positive negative) 0 1.

End Spec.

(** The sum that [_calculate_lead_score] hands to its final [min], in
    closed form: the capped engagement term, the sentiment term and the
    ratio term. *)
Definition terms_sum
  (message_count : Z) (average_sentiment : Q) (positive negative : Z) : Q :=
  Qmin (inject_Z message_count / 100) 0.4
  + 0.3 * Qmax 0 average_sentiment
  + 0.3 * (inject_Z positive / inject_Z (positive + negative)).

(** The sub-scores of the specification, each within [0, 1]. *)
Definition sub_scores_in_unit_interval
  (message_count : Z) (average_sentiment : Q) (positive negative : Z) : Prop :=
  (0 <= Spec.engagement message_count /\ Spec.engagement message_count <= 1) /\
  (0 <= Spec.sentiment average_sentiment /\
   Spec.sentiment average_sentiment <= 1) /\
  (0 <= Spec.ratio positive negative /\ Spec.ratio positive negative <= 1).

(** ** The engine on a contact with no classified message *)

Module Guarded.

(** Modelled from the spec: the engagement term for a contact with no
    classified message.  The excerpts never bind [total_messages] and
    show no test of it, so the sources do not say what the engine does
    when [positive_messages + negative_messages] is 0.  The
    specification does: "Engagement-ratio sub-score =
    positive_message_count / total_sentiment_classified_messages ...;
    if that denominator is 0, this sub-score is 0 (avoids division by
    zero ...)".  The term is that sub-score with the weight 0.3 of the
    excerpt. *)
Definition engagement_score (positive_messages negative_messages : Z) : Q :=
  Spec.ratio positive_messages negative_messages * 0.3.

(** [_calculate_lead_score] with the guarded term: the other two terms
    and the final [min] are those of the excerpt. *)
Definition _calculate_lead_score
  (message_count : Z) (avg_sentiment : Q)
  (positive_messages negative_messages : Z) : Q :=
  let message_score := message_score message_count in
  let sentiment_score := sentiment_score avg_sentiment in
  let engagement_score := engagement_score positive_messages negative_messages in
  Py.min (message_score + sentiment_score + engagement_score) 1.0.

Definition compute_score (positive_threshold : Q) (a : ContactAggregate)
  : LeadScore :=
  {| score := _calculate_lead_score (message_count a) (average_sentiment a)
                (positive_message_count a) (negative_message_count a);
     category := _categorize_contact positive_threshold
                   (message_count a) (average_sentiment a) |}.

End Guarded.

(** ** The hot-leads query of the BD analytics agent

    The source (agent integration guide, [BDAnalyticsAgent]):
<<
    if "hot leads" in query.lower():
        contacts = await self.db_manager.search_contacts(
            filters={'lead_score__gte': 70}
        )
        return self._format_hot_leads_response(contacts)
>>
    and
<<
    def _format_hot_leads_response(self, contacts):
        if not contacts:
            return "No hot leads found at this time."
        response = "Hot Leads (Score 70+):"
        for contact in contacts[:5]:  # Top 5
            ...
        return response
>>
*)

Record contact : Type := {
  name : string;
  organization : string;
  lead_score : Q
}.

(** The filter [lead_score__gte]: the stored score is at least the
    bound.  The query runs in core/local_database_manager.py, outside the
    sources; the reading is the one of the call site's key ("gte") and of
    the heading "Score 70+" of the response. *)
Definition lead_score__gte (bound : Q) (c : contact) : bool :=
  Py.geb (lead_score c) bound.

Definition search_contacts (db : list contact) (bound : Q) : list contact :=
  filter (lead_score__gte bound) db.

(** The response, by its two branches: the fixed sentence when no
    contact is selected, else the first five contacts under the heading. *)
Inductive hot_leads_response : Type :=
| NoHotLeads (message : string)
| HotLeads (heading : string) (top : list contact).

Definition _format_hot_leads_response (contacts : list contact)
  : hot_leads_response :=
  match contacts with
  | [] => NoHotLeads "No hot leads found at this time."
  | _ => HotLeads "Hot Leads (Score 70+):" (firstn 5 contacts)
  end.

(** The "hot leads" branch of [process_query]. *)
Definition process_query_hot_leads (db : list contact) : hot_leads_response :=
  let contacts := search_contacts db 70 in
  _format_hot_leads_response contacts.

(** A contact whose stored score is an output of [_calculate_lead_score]. *)
Definition scored (c : contact) : Prop :=
  exists (message_count : Z) (avg_sentiment : Q)
         (positive_messages negative_messages : Z) (v : Q),
    _calculate_lead_score message_count avg_sentiment
      positive_messages negative_messages = Py.Ok v /\
    lead_score c == v.

Definition sample_contact : contact :=
  {| name := "Sample"; organization := "No org"; lead_score := 127 # 150 |}.

(** ** The scoring function over binary64

    CPython's [float] is IEEE-754 binary64 with rounding to nearest, ties
    to even, which is the arithmetic of Rocq's primitive floats.  The
    function is repeated here over them, line by line, to evaluate it as
    Python does and to prove what holds with rounding.  [of_int] is
    exact, and [of_int a / of_int b] is Python's [a / b] on [int]s, for
    counts of magnitude below 2^53. *)

Module Binary64.

(** The conversion of an [int] that true division applies to its
    operands.  It is Python's for magnitudes below 2^53, where it is
    exact.  From 2^53 on it rounds, and from 2^63 on it takes the
    magnitude modulo 2^63, which Python does not: the statements about
    this module keep the counts below 2^53 or do not depend on the
    value. *)
Definition of_int (z : Z) : float :=
  match z with
  | Z0 => 0%float
  | Zpos _ => PrimFloat.of_uint63 (Uint63.of_Z z)
  | Zneg p => (- PrimFloat.of_uint63 (Uint63.of_Z (Zpos p)))%float
  end.

Definition min (a b : float) : float := if (b <? a)%float then b else a.

Definition max (a b : float) : float := if (a <? b)%float then b else a.

Definition truediv (a b : Z) : Py.result float :=
  if (b =? 0)%Z then Py.Raise Py.ZeroDivisionError
  else Py.Ok (of_int a / of_int b)%float.

Definition message_score (message_count : Z) : float :=
  min (of_int message_count / 100) 0.4.

Definition sentiment_score (avg_sentiment : float) : float :=
  (max 0 avg_sentiment * 0.3)%float.

Definition engagement_score (positive_messages negative_messages : Z)
  : Py.result float :=
  ratio <- truediv positive_messages
             (total_messages positive_messages negative_messages) ;;
  Py.Ok (ratio * 0.3)%float.

Definition _calculate_lead_score
  (message_count : Z) (avg_sentiment : float)
  (positive_messages negative_messages : Z) : Py.result float :=
  let message_score := message_score message_count in
  let sentiment_score := sentiment_score avg_sentiment in
  engagement_score <- engagement_score positive_messages negative_messages ;;
  Py.Ok (min (message_score + sentiment_score + engagement_score) 1.0)%float.

(** The filter [lead_score__gte] on a stored score. *)
Definition lead_score__gte (bound lead_score : float) : bool :=
  (bound <=? lead_score)%float.

End Binary64.

(** Non-negative floats: zeros of either sign, positive finite numbers
    and plus infinity; not NaN. *)
Definition sf_nonneg (x : spec_float) : bool :=
  match x with
  | S754_zero _ => true
  | S754_infinity s => negb s
  | S754_finite s _ _ => negb s
  | S754_nan => false
  end.

Definition b64_nonneg (x : float) : Prop := sf_nonneg (Prim2SF x) = true.

(** ** Outreach tiers

    The source (setup guide, "Personalized Outreach Blurbs"): the
    headings "High-Value Leads (Score > 0.8)", "Medium-Value Leads
    (Score > 0.6)" and "General Contacts", each with its message.  The
    tier of a score, the higher bound first. *)

Inductive OutreachTier : Type :=
| HighValueOutreach
| MediumValueOutreach
| GeneralOutreach.

Definition outreach_tier (lead_score : Q) : OutreachTier :=
  if Py.ltb 0.8 lead_score then HighValueOutreach
  else if Py.ltb 0.6 lead_score then MediumValueOutreach
  else GeneralOutreach.

(** ** A custom category

    The source (README_CRM_FEATURES.md, "Custom Contact Categories"):
<<
    def _categorize_contact(self, message_count: int, avg_sentiment: float) -> str:
        if message_count > 100 and avg_sentiment > 0.5:
            return "VIP Contact"
        # Add more custom categories
>>
    As printed, the function returns [None] when the rule does not
    apply. *)

Module Custom.

Definition _categorize_contact (message_count : Z) (avg_sentiment : Q)
  : option string :=
  if (100 <? message_count)%Z && Py.ltb 0.5 avg_sentiment
  then Some "VIP Contact"%string
  else None.

End Custom.

(** ** The event stream of the test notebook

    The source (notebooks/adk_app_testing.ipynb), on each line of the
    streamed response:
<<
    if line:
        line_str = line.decode("utf-8")
        if line_str.startswith("data: "):
            event_json = line_str[6:]
            event = json.loads(event_json)
>>
    A line is its text once decoded; the result is the text handed to
    [json.loads], if any. *)

Module Notebook.

Local Open Scope string_scope.

(** [s[n:]] *)
Fixpoint slice_from (n : nat) (s : string) : string :=
  match n, s with
  | O, _ => s
  | S _, EmptyString => EmptyString
  | S n', String _ rest => slice_from n' rest
  end.

Definition event_json (line_str : string) : option string :=
  if String.eqb line_str "" then None
  else if prefix "data: " line_str then Some (slice_from 6 line_str)
  else None.

End Notebook.

(** ** The BD analytics agent in full

    The source (agent integration guide, [BDAnalyticsAgent]):
<<
    async def process_query(self, query: str) -> str:
        if not self.db_manager:
            await self.initialize()
        if "hot leads" in query.lower():
            contacts = await self.db_manager.search_contacts(
                filters={'lead_score__gte': 70}
            )
            return self._format_hot_leads_response(contacts)
        elif "follow up" in query.lower():
            needs_followup = await self._get_followup_contacts()
            return self._format_followup_response(needs_followup)
        return f"Processing BD query: {query}"

    def _format_hot_leads_response(self, contacts):
        if not contacts:
            return "No hot leads found at this time."
        response = "🔥 **Hot Leads (Score 70+):**\n\n"
        for contact in contacts[:5]:  # Top 5
            response += f"• **{contact.get('name', 'Unknown')}** "
            response += f"({contact.get('organization', 'No org')}) "
            response += f"- Score: {contact.get('lead_score', 0)}\n"
            if contact.get('last_interaction'):
                response += f"  Last contact: {contact['last_interaction']}\n"
        return response
>>
    Here a contact is a Python dict, and the response is the string the
    method builds, or [None] when an exception ends it: a subscript
    [d[key]] can raise [KeyError], and the conversion of an [int] to
    text can raise [ValueError].  Strings are byte strings: [lower] is
    Python's [str.lower] on ASCII text. *)

Module Agent.

Local Open Scope string_scope.

(** The values a contact record holds. *)
Inductive pyval : Type :=
| PyNone
| PyStr (s : string)
| PyInt (z : Z)
| PyFloat (x : float).

Definition dict : Type := list (string * pyval).

Fixpoint dict_get (key : string) (d : dict) : option pyval :=
  match d with
  | [] => None
  | (k, v) :: rest => if String.eqb key k then Some v else dict_get key rest
  end.

(** [d.get(key, default)] *)
Definition get_default (key : string) (default : pyval) (d : dict) : pyval :=
  match dict_get key d with
  | Some v => v
  | None => default
  end.

(** [d.get(key)] *)
Definition get (key : string) (d : dict) : pyval := get_default key PyNone d.

(** [d[key]]: [None] stands for [KeyError]. *)
Definition subscript (key : string) (d : dict) : option pyval := dict_get key d.

(** [bool(v)] *)
Definition truthy (v : pyval) : bool :=
  match v with
  | PyNone => false
  | PyStr s => negb (String.eqb s "")
  | PyInt z => negb (z =? 0)%Z
  | PyFloat x => negb (x =? 0)%float
  end.

Definition nl : string := String "010"%char EmptyString.

(** [str.lower] on one ASCII character. *)
Definition lower_char (c : ascii) : ascii :=
  let n := nat_of_ascii c in
  if (65 <=? n)%nat && (n <=? 90)%nat then ascii_of_nat (n + 32) else c.

Fixpoint lower (s : string) : string :=
  match s with
  | EmptyString => EmptyString
  | String c rest => String (lower_char c) (lower rest)
  end.

(** [needle in haystack] *)
Fixpoint contains (needle haystack : string) : bool :=
  prefix needle haystack ||
  match haystack with
  | EmptyString => false
  | String _ rest => contains needle rest
  end.

(** CPython's bound on the decimal digits of an [int] that is converted
    to text, [sys.int_max_str_digits]: 4300 unless the interpreter is
    configured otherwise (versions from 3.11 on). *)
Definition int_max_str_digits : Z := 4300.

(** The values whose conversion to text raises [ValueError]: the [int]s
    of more than [int_max_str_digits] decimal digits, the sign left
    out, which are those of magnitude 10^4300 and above. *)
Definition too_long (v : pyval) : bool :=
  match v with
  | PyInt z => (10 ^ int_max_str_digits <=? Z.abs z)%Z
  | _ => false
  end.

(** The values of a contact that the loop converts to text. *)
Definition shown_values (contact : dict) : list pyval :=
  [ get_default "name" (PyStr "Unknown") contact;
    get_default "organization" (PyStr "No org") contact;
    get_default "lead_score" (PyInt 0) contact ]
  ++ (if truthy (get "last_interaction" contact)
      then [get "last_interaction" contact]
      else [])%list.

(** A contact one of whose shown values cannot be converted. *)
Definition unprintable (contact : dict) : bool :=
  existsb too_long (shown_values contact).

(** Sequencing of steps that can raise. *)
Definition and_then {A B : Type} (r : option A) (k : A -> option B)
  : option B :=
  match r with
  | Some a => k a
  | None => None
  end.

Local Notation "x <- r ;;; k" := (and_then r (fun x => k))
  (at level 61, r at next level, right associativity).

Section Rendering.

(** [str(x)] of a float, Python's shortest round-trip decimal; a
    built-in, taken as given. *)
Variable float_str : float -> string.

(** [str(v)], as an f-string field renders a value; [None] stands for
    the [ValueError] of an [int] that is [too_long]. *)
Definition py_str (v : pyval) : option string :=
  match v with
  | PyNone => Some "None"
  | PyStr s => Some s
  | PyInt z =>
      if too_long v then None else Some (NilZero.string_of_int (Z.to_int z))
  | PyFloat x => Some (float_str x)
  end.

(** [response += f"{before}{v}{after}"] *)
Definition add_field (response before : string) (v : pyval) (after : string)
  : option string :=
  match py_str v with
  | Some text => Some (response ++ before ++ text ++ after)
  | None => None
  end.

(** The body of the loop: what one contact appends to [response]. *)
Definition append_contact (response : string) (contact : dict)
  : option string :=
  response <- add_field response "• **"
                (get_default "name" (PyStr "Unknown") contact) "** " ;;;
  response <- add_field response "("
                (get_default "organization" (PyStr "No org") contact) ") " ;;;
  response <- add_field response "- Score: "
                (get_default "lead_score" (PyInt 0) contact) nl ;;;
  if truthy (get "last_interaction" contact) then
    v <- subscript "last_interaction" contact ;;;
    add_field response "  Last contact: " v nl
  else Some response.

(** [for contact in contacts: body], stopping at the first exception. *)
Fixpoint for_each (contacts : list dict) (response : string) : option string :=
  match contacts with
  | [] => Some response
  | contact :: rest =>
      match append_contact response contact with
      | Some response' => for_each rest response'
      | None => None
      end
  end.

Definition _format_hot_leads_response (contacts : list dict) : option string :=
  match contacts with
  | [] => Some "No hot leads found at this time."
  | _ :: _ =>
      for_each (firstn 5 contacts) ("🔥 **Hot Leads (Score 70+):**" ++ nl ++ nl)
  end.

(** The text of a value that [py_str] renders. *)
Definition text (v : pyval) : string :=
  match py_str v with
  | Some s => s
  | None => ""
  end.

(** The lines of one contact, on their own. *)
Definition contact_lines (contact : dict) : string :=
  "• **" ++ text (get_default "name" (PyStr "Unknown") contact) ++ "** "
  ++ "(" ++ text (get_default "organization" (PyStr "No org") contact) ++ ") "
  ++ "- Score: " ++ text (get_default "lead_score" (PyInt 0) contact) ++ nl
  ++ (if truthy (get "last_interaction" contact)
      then "  Last contact: " ++ text (get "last_interaction" contact) ++ nl
      else "").

(** The database manager and the follow-up helpers are outside the
    sources: [get_local_db_manager], [search_contacts] with its filter
    bound, and the text that [_get_followup_contacts] and
    [_format_followup_response] produce together are taken as given. *)
Variable manager : Type.
Variable get_local_db_manager : manager.
Variable search_contacts : manager -> Z -> list dict.
Variable followup_response : manager -> option string.

Record BDAnalyticsAgent : Type := {
  db_manager : option manager;
  name : string
}.

(** [__init__] *)
Definition init : BDAnalyticsAgent :=
  {| db_manager := None; name := "BD Analytics Agent" |}.

(** [initialize] *)
Definition initialize (self : BDAnalyticsAgent) : BDAnalyticsAgent :=
  {| db_manager := Some get_local_db_manager; name := name self |}.

(** The manager in use once the guard [if not self.db_manager] has run. *)
Definition ensure_initialized (self : BDAnalyticsAgent) : BDAnalyticsAgent :=
  match db_manager self with
  | Some _ => self
  | None => initialize self
  end.

Definition manager_of (self : BDAnalyticsAgent) : manager :=
  match db_manager self with
  | Some m => m
  | None => get_local_db_manager
  end.

(** [process_query]: the response (or the exception of a helper) and the
    agent afterwards. *)
Definition process_query (self : BDAnalyticsAgent) (query : string)
  : option string * BDAnalyticsAgent :=
  let self := ensure_initialized self in
  if contains "hot leads" (lower query) then
    let contacts := search_contacts (manager_of self) 70 in
    (_format_hot_leads_response contacts, self)
  else if contains "follow up" (lower query) then
    (followup_response (manager_of self), self)
  else (Some ("Processing BD query: " ++ query), self).

End Rendering.

Arguments db_manager {manager} _.
Arguments name {manager} _.
Arguments initialize {manager} get_local_db_manager self.
Arguments ensure_initialized {manager} get_local_db_manager self.
Arguments manager_of {manager} get_local_db_manager self.
Arguments process_query float_str {manager} get_local_db_manager
  search_contacts followup_response self query.

(** The test queries the guide proposes for the playground. *)
Definition guide_test_queries : list string :=
  [ "Who are my hottest leads this week?";
    "Which contacts need follow-up?";
    "What's my pipeline value for this quarter?";
    "Show me recent opportunities";
    "Generate a BD summary report" ].

(** A contact record with a name and a score only. *)
Definition sample_hot_lead : dict :=
  [ ("name", PyStr "Ada"); ("lead_score", PyInt 85) ].

End Agent.

(** ** The startup script

    The source: the start script of the bot (bash, [set -e]).  It checks
    its directory and the [.env] file, sources [.env], checks four
    required variables, makes sure an Ollama server answers (starting one
    and polling it for up to thirty rounds), makes sure the model is
    there, tests the connection, prepares the virtual environment, runs
    the feature tests, and starts the bot; the signal handlers come last.

    What the script finds (files, variables, the exit status of each
    command, the answer of each poll, whether the server it started ever
    ends) is a [world]; what it does is the list of the commands it runs
    that act on the machine, and how it ends: the status it exits with,
    or no exit at all when its final [wait] never returns.  The messages
    it prints are left out, and so are signals: no handler runs. *)

Module Startup.

Local Open Scope string_scope.

(** The shell variables: the value of a name, the first binding of the
    list; an unset name has no binding. *)
Definition environment : Type := list (string * string).

(** ["${!var}"]: the value, empty when unset. *)
Fixpoint expand (var : string) (env : environment) : string :=
  match env with
  | [] => ""
  | (k, v) :: rest => if String.eqb var k then v else expand var rest
  end.

(** [NAME=value] *)
Definition assign (env : environment) (binding : string * string)
  : environment :=
  binding :: env.

(** [source file], for a file of assignments: each in turn. *)
Definition source_assignments (assignments : list (string * string))
  (env : environment) : environment :=
  fold_left assign assignments env.

(** [[ -z "$s" ]] *)
Definition is_empty (s : string) : bool := String.eqb s "".

Definition required_vars : list string :=
  [ "TELEGRAM_BOT_TOKEN"; "TELEGRAM_API_ID"; "TELEGRAM_API_HASH";
    "TELEGRAM_PHONE" ].

(** The loop
<<
    missing_vars=()
    for var in "${required_vars[@]}"; do
        if [ -z "${!var}" ]; then
            missing_vars+=("$var")
        fi
    done
>>
*)
Definition missing_vars (env : environment) : list string :=
  fold_left
    (fun missing var =>
       if is_empty (expand var env) then (missing ++ [var])%list else missing)
    required_vars [].

(** [MODEL_NAME=${OLLAMA_MODEL:-"llama3.2:3b"}] *)
Definition model_name (env : environment) : string :=
  if is_empty (expand "OLLAMA_MODEL" env) then "llama3.2:3b"
  else expand "OLLAMA_MODEL" env.

(** The assignments of the file [env.template], in its order. *)
Definition env_template : list (string * string) :=
  [ ("TELEGRAM_API_ID", "your_api_id_here");
    ("TELEGRAM_API_HASH", "your_api_hash_here");
    ("TELEGRAM_PHONE", "+1234567890");
    ("TELEGRAM_BOT_TOKEN", "your_bot_token_from_botfather");
    ("TELEGRAM_USER_ID", "your_telegram_user_id");
    ("OPENAI_API_KEY", "sk-proj-your-openai-key-here");
    ("GOOGLE_SERVICE_ACCOUNT_EMAIL",
     "your_service_account@your_project.iam.gserviceaccount.com");
    ("GOOGLE_SHEET_ID", "your_google_sheet_id_here");
    ("DATABASE_PATH", "data/bd_database.db");
    ("LOG_LEVEL", "INFO");
    ("LOG_FILE", "logs/bd_bot.log");
    ("MAX_MESSAGES_PER_CHAT", "1000");
    ("EXTRACTION_DAYS_BACK", "180");
    ("BATCH_SIZE", "100");
    ("AI_MODEL", "gpt-3.5-turbo");
    ("AI_TEMPERATURE", "0.3");
    ("AI_MAX_TOKENS", "1500") ].

(** The commands of the script that act on the machine. *)
Inductive action : Type :=
| CopyTemplate          (* cp env.template .env *)
| SourceEnv             (* source .env *)
| ServeOllama           (* ollama serve & *)
| Sleep                 (* sleep 1 *)
| PullModel (model : string)   (* ollama pull "$MODEL_NAME" *)
| CreateVenv            (* python3 -m venv .venv *)
| ActivateVenv          (* source .venv/bin/activate *)
| UpgradePip            (* pip install --upgrade pip *)
| InstallRequirements   (* pip install -r requirements.txt *)
| RunTests              (* python3 test_features.py *)
| MakeLogs              (* mkdir -p logs *)
| RunBot                (* python3 start_optimized_bot.py *)
| TrapSignals           (* trap cleanup SIGINT SIGTERM *)
| WaitJobs.             (* wait *)

(** A piece of script: the actions it ran, and the status it exited
    with, or [None] when it ran to its end and the script goes on with
    what follows. *)
Definition sh : Type := list action * option nat.

Definition skip : sh := ([], None).

(** [exit n] *)
Definition exit (status : nat) : sh := ([], Some status).

(** A command whose status is not tested. *)
Definition run (a : action) : sh := ([a], None).

(** A simple command under [set -e]: a status other than 0 ends the
    script with that status. *)
Definition run_e (a : action) (status : nat) : sh :=
  ([a], if (status =? 0)%nat then None else Some status).

(** [first; second] *)
Definition seq (first second : sh) : sh :=
  match first with
  | (done, Some status) => (done, Some status)
  | (done, None) => ((done ++ fst second)%list, snd second)
  end.

Infix ";;;" := seq (at level 62, right associativity).

(** The loop that waits for the server
<<
    for i in {1..30}; do
        if curl -s http://localhost:11434/api/tags &> /dev/null; then
            print_success "Ollama server started successfully"
            break
        fi
        if [ $i -eq 30 ]; then
            print_error "Failed to start Ollama server after 30 seconds"
            exit 1
        fi
        sleep 1
    done
>>
    [poll i] is the answer of the [curl] of round [i]. *)
Fixpoint wait_rounds (poll : nat -> bool) (rounds : list nat) : sh :=
  match rounds with
  | [] => skip
  | i :: rest =>
      if poll i then skip
      else if (i =? 30)%nat then exit 1
      else run Sleep ;;; wait_rounds poll rest
  end.

Definition wait_for_server (poll : nat -> bool) : sh :=
  wait_rounds poll (List.seq 1 30).

(** What the script finds. *)
Record world : Type := {
  has_bot_file : bool;          (* [ -f "telegram_bot_optimized.py" ] *)
  has_env_file : bool;          (* [ -f ".env" ] *)
  cp_status : nat;
  source_status : nat;
  env : environment;            (* the variables once .env is sourced *)
  ollama_installed : bool;      (* command -v ollama *)
  server_answers : bool;        (* the first curl *)
  poll : nat -> bool;           (* the curl of each round of the loop *)
  model_listed : bool;          (* ollama list | grep -q "$MODEL_NAME" *)
  pull_status : nat;
  connection_ok : bool;         (* the python3 -c test *)
  has_venv : bool;              (* [ -d ".venv" ] *)
  venv_status : nat;
  activate_status : nat;
  pip_status : nat;
  requirements_status : nat;
  tests_pass : bool;            (* python3 test_features.py *)
  mkdir_status : nat;
  bot_status : nat;
  server_ends : bool            (* the job of "ollama serve &" ends by itself *)
}.

(** How a run of the script ends: it exits with a status, or it stays in
    its final [wait]. *)
Inductive ending : Type :=
| Exits (status : nat)
| Blocked.

(** The script before its last command. *)
Definition commands (w : world) : sh :=
  (if has_bot_file w then skip else exit 1) ;;;
  (if has_env_file w then skip
   else run_e CopyTemplate (cp_status w) ;;; exit 1) ;;;
  run_e SourceEnv (source_status w) ;;;
  (match missing_vars (env w) with
   | [] => skip
   | _ :: _ => exit 1
   end) ;;;
  (if ollama_installed w then skip else exit 1) ;;;
  (if server_answers w then skip
   else run ServeOllama ;;; wait_for_server (poll w)) ;;;
  (if model_listed w then skip
   else run_e (PullModel (model_name (env w))) (pull_status w)) ;;;
  (if connection_ok w then skip else exit 1) ;;;
  (if has_venv w then skip else run_e CreateVenv (venv_status w)) ;;;
  run_e ActivateVenv (activate_status w) ;;;
  run_e UpgradePip (pip_status w) ;;;
  run_e InstallRequirements (requirements_status w) ;;;
  run RunTests ;;;
  run_e MakeLogs (mkdir_status w) ;;;
  run_e RunBot (bot_status w) ;;;
  run TrapSignals.

(** [wait], the last command: it returns, with status 0, once every
    background job of the shell has ended.  The script starts one job at
    most, the server ([ollama serve &]), and only when the first [curl]
    got no answer: [wait] then lasts as long as that server. *)
Definition wait (w : world) : ending :=
  if server_answers w || server_ends w then Exits 0 else Blocked.

(** The whole script. *)
Definition startup (w : world) : list action * ending :=
  match commands w with
  | (done, Some status) => (done, Exits status)
  | (done, None) => ((done ++ [WaitJobs])%list, wait w)
  end.

(** The script up to the start of the bot: [commands] is [preparation]
    followed by the bot and [trap]. *)
Definition preparation (w : world) : sh :=
  (if has_bot_file w then skip else exit 1) ;;;
  (if has_env_file w then skip
   else run_e CopyTemplate (cp_status w) ;;; exit 1) ;;;
  run_e SourceEnv (source_status w) ;;;
  (match missing_vars (env w) with
   | [] => skip
   | _ :: _ => exit 1
   end) ;;;
  (if ollama_installed w then skip else exit 1) ;;;
  (if server_answers w then skip
   else run ServeOllama ;;; wait_for_server (poll w)) ;;;
  (if model_listed w then skip
   else run_e (PullModel (model_name (env w))) (pull_status w)) ;;;
  (if connection_ok w then skip else exit 1) ;;;
  (if has_venv w then skip else run_e CreateVenv (venv_status w)) ;;;
  run_e ActivateVenv (activate_status w) ;;;
  run_e UpgradePip (pip_status w) ;;;
  run_e InstallRequirements (requirements_status w) ;;;
  run RunTests ;;;
  run_e MakeLogs (mkdir_status w).

(** Every guard of the script passes. *)
Definition ready (w : world) : Prop :=
  has_bot_file w = true /\
  has_env_file w = true /\
  source_status w = 0%nat /\
  Forall (fun var => expand var (env w) <> "") required_vars /\
  ollama_installed w = true /\
  (server_answers w = true \/
   exists i : nat, (1 <= i <= 30)%nat /\ poll w i = true) /\
  (model_listed w = true \/ pull_status w = 0%nat) /\
  connection_ok w = true /\
  (has_venv w = true \/ venv_status w = 0%nat) /\
  activate_status w = 0%nat /\
  pip_status w = 0%nat /\
  requirements_status w = 0%nat /\
  mkdir_status w = 0%nat.

(** A world in which everything is in place: the [.env] is the template,
    the server answers from the third round on, every command succeeds. *)
Definition sample_world : world :=
  {| has_bot_file := true;
     has_env_file := true;
     cp_status := 0;
     source_status := 0;
     env := source_assignments env_template [];
     ollama_installed := true;
     server_answers := false;
     poll := fun i => (3 <=? i)%nat;
     model_listed := false;
     pull_status := 0;
     connection_ok := true;
     has_venv := false;
     venv_status := 0;
     activate_status := 0;
     pip_status := 0;
     requirements_status := 0;
     tests_pass := false;
     mkdir_status := 0;
     bot_status := 2;
     server_ends := false |}.

End Startup.

(** * Properties *)

(** ** The built-ins *)

Lemma py_ltb_spec (a b : Q) : reflect (a < b) (Py.ltb a b).
Proof.
  unfold Py.ltb. destruct (a ?= b) eqn:E; constructor.
  - apply Qeq_alt in E. lra.
  - apply Qlt_alt in E. exact E.
  - apply Qgt_alt in E. lra.
Qed.

Lemma py_ltb_true (a b : Q) : a < b -> Py.ltb a b = true.
Proof. intros H. destruct (py_ltb_spec a b); [reflexivity | contradiction]. Qed.

Lemma py_ltb_false (a b : Q) : b <= a -> Py.ltb a b = false.
Proof. intros H. destruct (py_ltb_spec a b); [lra | reflexivity]. Qed.

Lemma py_min_Qmin (a b : Q) : Py.min a b == Qmin a b.
Proof.
  unfold Py.min. destruct (py_ltb_spec b a).
  - symmetry. apply Q.min_r. lra.
  - symmetry. apply Q.min_l. lra.
Qed.

Lemma py_max_Qmax (a b : Q) : Py.max a b == Qmax a b.
Proof.
  unfold Py.max. destruct (py_ltb_spec a b).
  - symmetry. apply Q.max_r. lra.
  - symmetry. apply Q.max_l. lra.
Qed.

Lemma Qmin_ext (a a' b b' : Q) :
  a == a' -> b == b' -> Qmin a b == Qmin a' b'.
Proof. intros Ha Hb. rewrite Ha, Hb. reflexivity. Qed.

Lemma py_min_le_r (a b : Q) : Py.min a b <= b.
Proof. unfold Py.min. destruct (py_ltb_spec b a); lra. Qed.

Lemma py_min_glb (a b c : Q) : c <= a -> c <= b -> c <= Py.min a b.
Proof. unfold Py.min. destruct (py_ltb_spec b a); lra. Qed.

Lemma py_max_ge_l (a b : Q) : a <= Py.max a b.
Proof. unfold Py.max. destruct (py_ltb_spec a b); lra. Qed.

(** [message_count / 100] as a multiple of [message_count]. *)
Lemma div_100 (message_count : Z) :
  inject_Z message_count / 100 == inject_Z message_count * 0.01.
Proof. unfold Qdiv. reflexivity. Qed.

Lemma inject_Z_le (a b : Z) : (a <= b)%Z <-> inject_Z a <= inject_Z b.
Proof. rewrite Zle_Qle. reflexivity. Qed.

(** ** The engagement term (C1) *)

(** The closed form of [message_score], with the library's [Qmin]. *)
Lemma message_score_closed_form (message_count : Z) :
  message_score message_count == Qmin (inject_Z message_count / 100) 0.4.
Proof. unfold message_score. apply py_min_Qmin. Qed.

Lemma message_score_below_40 (message_count : Z) :
  (message_count <= 40)%Z ->
  message_score message_count == inject_Z message_count / 100.
Proof.
  intros H. rewrite message_score_closed_form, div_100.
  apply Q.min_l. apply inject_Z_le in H. change (inject_Z 40) with 40 in H. lra.
Qed.

Lemma message_score_from_40 (message_count : Z) :
  (40 <= message_count)%Z -> message_score message_count == 0.4.
Proof.
  intros H. rewrite message_score_closed_form, div_100.
  apply Q.min_r. apply inject_Z_le in H. change (inject_Z 40) with 40 in H. lra.
Qed.

Lemma spec_engagement_closed_form (message_count : Z) :
  Spec.engagement_contribution message_count
  == 0.4 * Qmin (inject_Z message_count * 0.01) 1.
Proof.
  unfold Spec.engagement_contribution, Spec.engagement.
  rewrite div_100. reflexivity.
Qed.

(** C1, as stated, fails: at 25 messages the engagement term of
    [_calculate_lead_score] is 0.25, where 0.4 * min(25 / 100, 1.0) is
    0.1. *)
Lemma engagement_contribution_differs_at_25 :
  ~ message_score 25 == Spec.engagement_contribution 25.
Proof. vm_compute. discriminate. Qed.

(** C1, amended: the engagement term added to the total is
    min(message_count / 100, 0.4), the cap 0.4 being applied to
    message_count / 100 itself; it saturates from 40 messages on, where it
    is exactly 0.4; and it is the 0.4 * min(message_count / 100, 1.0) of
    the specification exactly when message_count is 0 or at least 100. *)
Theorem message_score_saturates_at_40 (message_count : Z) :
  message_score message_count == Qmin (inject_Z message_count / 100) 0.4 /\
  ((40 <= message_count)%Z -> message_score message_count == 0.4) /\
  (message_score message_count == Spec.engagement_contribution message_count
   <-> (message_count = 0 \/ 100 <= message_count)%Z).
Proof.
  split; [apply message_score_closed_form |].
  split; [apply message_score_from_40 |].
  rewrite spec_engagement_closed_form.
  destruct (Z_lt_le_dec message_count 40) as [Hlt | Hge].
  - rewrite message_score_below_40, div_100 by lia.
    assert (Hq : inject_Z message_count < 40)
      by (change 40 with (inject_Z 40); rewrite <- Zlt_Qlt; exact Hlt).
    rewrite Q.min_l by lra. split.
    + intros E. left.
      assert (E0 : inject_Z message_count == inject_Z 0)
        by (change (inject_Z 0) with 0; lra).
      apply (proj1 (inject_Z_injective _ _)). exact E0.
    + intros [-> | H]; [reflexivity | lia].
  - rewrite message_score_from_40 by exact Hge.
    destruct (Z_lt_le_dec message_count 100) as [Hlt | Hge'].
    + assert (Hq : inject_Z message_count < 100)
        by (change 100 with (inject_Z 100); rewrite <- Zlt_Qlt; exact Hlt).
      rewrite Q.min_l by lra. split.
      * intros E. exfalso. lra.
      * intros [-> | H]; lia.
    + assert (Hq : 100 <= inject_Z message_count)
        by (change 100 with (inject_Z 100); rewrite <- Zle_Qle; exact Hge').
      rewrite Q.min_r by lra. split.
      * intros _. right. exact Hge'.
      * intros _. reflexivity.
Qed.

Lemma message_score_saturates_at_40_witness :
  message_score 100 == 0.4 /\
  message_score 100 == Spec.engagement_contribution 100.
Proof.
  destruct (message_score_saturates_at_40 100) as [_ [Hsat Hiff]].
  split.
  - apply Hsat. lia.
  - apply Hiff. right. lia.
Defined.


(** ** When the score is defined *)

Lemma engagement_score_ok (positive_messages negative_messages : Z) :
  (positive_messages + negative_messages <> 0)%Z ->
  engagement_score positive_messages negative_messages
  = Py.Ok (inject_Z positive_messages
           / inject_Z (positive_messages + negative_messages) * 0.3).
Proof.
  intros H. unfold engagement_score, Py.truediv, total_messages.
  destruct (Z.eqb_spec (positive_messages + negative_messages) 0) as [E | _];
    [contradiction | reflexivity].
Qed.

(** The third line of the excerpt divides by [total_messages] with no
    test before it: whenever that name holds 0 the line raises. *)
Lemma engagement_score_raises (positive_messages negative_messages : Z) :
  (positive_messages + negative_messages = 0)%Z ->
  engagement_score positive_messages negative_messages
  = Py.Raise Py.ZeroDivisionError.
Proof.
  intros H. unfold engagement_score, Py.truediv, total_messages.
  rewrite H. reflexivity.
Qed.

Lemma _calculate_lead_score_ok
  (message_count : Z) (avg_sentiment : Q)
  (positive_messages negative_messages : Z) :
  (positive_messages + negative_messages <> 0)%Z ->
  _calculate_lead_score message_count avg_sentiment
    positive_messages negative_messages
  = Py.Ok (Py.min (message_score message_count
                   + sentiment_score avg_sentiment
                   + inject_Z positive_messages
                     / inject_Z (positive_messages + negative_messages) * 0.3)
             1.0).
Proof.
  intros H. unfold _calculate_lead_score.
  rewrite engagement_score_ok by exact H. reflexivity.
Qed.

Lemma _calculate_lead_score_raises
  (message_count : Z) (avg_sentiment : Q)
  (positive_messages negative_messages : Z) :
  (positive_messages + negative_messages = 0)%Z ->
  _calculate_lead_score message_count avg_sentiment
    positive_messages negative_messages
  = Py.Raise Py.ZeroDivisionError.
Proof.
  intros H. unfold _calculate_lead_score.
  rewrite engagement_score_raises by exact H. reflexivity.
Qed.

(** ** The worked scenarios (C2) *)

(** C2, as stated, fails on its second scenario: for message_count=25,
    positive=10, negative=10, average_sentiment=0.1 no choice of the
    Positive Contact threshold makes [compute_score] return the score
    0.28. *)
Lemma scenario_25_score_is_not_0_28 :
  ~ exists (positive_threshold : Q) (id : Z) (ls : LeadScore),
      compute_score positive_threshold (scenario id 25 10 10 0.1) = Py.Ok ls /\
      score ls == 0.28.
Proof.
  intros (t & id & ls & H & E).
  vm_compute in H. injection H as <-.
  vm_compute in E. discriminate.
Qed.

(** C2, amended: for message_count=60, positive=40, negative=5,
    average_sentiment=0.6 [compute_score] returns the score 127/150, which
    is 0.8467 to four decimals, with category High-Value Lead; for
    message_count=25, positive=10, negative=10, average_sentiment=0.1 it
    returns the score 0.43 (0.25 + 0.03 + 0.15), not 0.28, with category
    Active Contact.  Computed in binary64 as Python does, the two scores
    are 0.84666666666666668 and 0.43000000000000005. *)
Theorem compute_score_worked_scenarios (positive_threshold : Q) (id : Z) :
  (exists ls : LeadScore,
      compute_score positive_threshold (scenario id 60 40 5 0.6) = Py.Ok ls /\
      score ls == 127 # 150 /\
      0.84665 < score ls /\ score ls < 0.84675 /\
      category ls = HighValueLead) /\
  (exists ls : LeadScore,
      compute_score positive_threshold (scenario id 25 10 10 0.1) = Py.Ok ls /\
      score ls == 0.43 /\
      category ls = ActiveContact) /\
  Binary64._calculate_lead_score 60 0.6 40 5
  = Py.Ok 0.84666666666666668%float /\
  Binary64._calculate_lead_score 25 0.1 10 10
  = Py.Ok 0.43000000000000005%float.
Proof.
  split; [| split; [| split]].
  - eexists. split; [reflexivity |]. simpl.
    repeat split; vm_compute; reflexivity.
  - eexists. split; [reflexivity |]. simpl.
    split; vm_compute; reflexivity.
  - vm_compute. reflexivity.
  - vm_compute. reflexivity.
Qed.

(** ** Bounds of the three terms *)

Lemma message_score_nonneg (message_count : Z) :
  0 <= inject_Z message_count / 100 -> 0 <= message_score message_count.
Proof. intros H. unfold message_score. apply py_min_glb; lra. Qed.

Lemma message_count_div_100_nonneg (message_count : Z) :
  (0 <= message_count)%Z -> 0 <= inject_Z message_count / 100.
Proof.
  intros H. rewrite div_100. apply inject_Z_le in H.
  change (inject_Z 0) with 0 in H. lra.
Qed.

Lemma sentiment_score_nonneg (avg_sentiment : Q) :
  0 <= sentiment_score avg_sentiment.
Proof.
  unfold sentiment_score.
  pose proof (py_max_ge_l 0 avg_sentiment). lra.
Qed.

Lemma positive_ratio_nonneg (positive_messages negative_messages : Z) :
  (0 <= positive_messages)%Z ->
  (0 < positive_messages + negative_messages)%Z ->
  0 <= inject_Z positive_messages
       / inject_Z (positive_messages + negative_messages).
Proof.
  intros Hp Ht.
  apply inject_Z_le in Hp. change (inject_Z 0) with 0 in Hp.
  rewrite Zlt_Qlt in Ht. change (inject_Z 0) with 0 in Ht.
  apply Qle_shift_div_l; [exact Ht | lra].
Qed.

Lemma spec_ratio_defined (positive negative : Z) :
  (positive + negative <> 0)%Z ->
  Spec.ratio positive negative
  = inject_Z positive / inject_Z (positive + negative).
Proof.
  intros H. unfold Spec.ratio.
  destruct (Z.eqb_spec (positive + negative) 0); [contradiction | reflexivity].
Qed.

(** ** The total (C4) *)

(** C4, as stated, fails: for message_count=25, average_sentiment=0.1,
    positive=10, negative=10 the three sub-scores are 0.25, 0.1 and 0.5,
    the clamped weighted sum of the specification is 0.28, and
    [_calculate_lead_score] returns 0.43. *)
Lemma score_is_not_the_clamped_weighted_sum :
  sub_scores_in_unit_interval 25 0.1 10 10 /\
  ~ (exists v : Q,
       _calculate_lead_score 25 0.1 10 10 = Py.Ok v /\
       v == Spec.score 25 0.1 10 10).
Proof.
  split.
  - unfold sub_scores_in_unit_interval. vm_compute. intuition discriminate.
  - intros (v & Hv & E).
    vm_compute in Hv. injection Hv as <-. vm_compute in E. discriminate.
Qed.

(** The source has no lower clamp: on a negative message count (outside
    the data model) the returned score is negative, where the
    specification's clamp gives 0. *)
Lemma score_has_no_lower_clamp :
  exists v : Q,
    _calculate_lead_score (-100) 0 1 1 = Py.Ok v /\ v < 0 /\
    Spec.score (-100) 0 1 1 == 0.
Proof.
  eexists. split; [reflexivity |]. split; vm_compute; reflexivity.
Qed.

(** C4, amended: whenever some message is classified, the total is
    min(min(message_count / 100, 0.4) + 0.3 * max(0, average_sentiment)
        + 0.3 * positive / (positive + negative), 1.0)
    -- the engagement term capped at 0.4 and not weighted, and the sum
    clamped at the upper bound 1.0 only: a sum of at least 1 is returned
    as 1, and a sum of at most 1 is returned as it is, a negative one
    included -- and for every such input whose three sub-scores
    individually lie in [0,1] the returned score lies within
    [0.0, 1.0]. *)
Theorem score_is_capped_sum_within_unit_interval
  (message_count : Z) (average_sentiment : Q) (positive negative : Z) :
  (positive + negative <> 0)%Z ->
  exists v : Q,
    _calculate_lead_score message_count average_sentiment positive negative
    = Py.Ok v /\
    v == Qmin (Qmin (inject_Z message_count / 100) 0.4
               + 0.3 * Qmax 0 average_sentiment
               + 0.3 * (inject_Z positive / inject_Z (positive + negative)))
           1 /\
    (1 <= terms_sum message_count average_sentiment positive negative ->
     v == 1) /\
    (terms_sum message_count average_sentiment positive negative <= 1 ->
     v == terms_sum message_count average_sentiment positive negative) /\
    (sub_scores_in_unit_interval message_count average_sentiment
       positive negative ->
     0 <= v /\ v <= 1).
Proof.
  intros Hden.
  rewrite _calculate_lead_score_ok by exact Hden.
  eexists. split; [reflexivity |].
  assert (Hform :
    Py.min (message_score message_count + sentiment_score average_sentiment
            + inject_Z positive / inject_Z (positive + negative) * 0.3) 1.0
    == Qmin (terms_sum message_count average_sentiment positive negative) 1).
  { etransitivity; [apply py_min_Qmin |].
    apply Qmin_ext; [| reflexivity].
    unfold sentiment_score, terms_sum.
    rewrite message_score_closed_form, py_max_Qmax. ring. }
  split; [exact Hform |]. split; [| split].
  - intros Hsum. rewrite Hform. apply Q.min_r. exact Hsum.
  - intros Hsum. rewrite Hform. apply Q.min_l. exact Hsum.
  - intros [[Hengagement _] [_ [Hratio _]]].
    rewrite spec_ratio_defined in Hratio by exact Hden.
    split.
    + apply py_min_glb; [| lra].
      assert (0 <= message_score message_count).
      { apply message_score_nonneg. unfold Spec.engagement in Hengagement.
        apply Q.min_glb_l in Hengagement. exact Hengagement. }
      pose proof (sentiment_score_nonneg average_sentiment). lra.
    + eapply Qle_trans; [apply py_min_le_r | lra].
Qed.

Lemma score_is_capped_sum_within_unit_interval_witness :
  exists v : Q,
    _calculate_lead_score 25 0.1 10 10 = Py.Ok v /\
    v == 0.43 /\ 0 <= v /\ v <= 1.
Proof.
  destruct (score_is_capped_sum_within_unit_interval 25 0.1 10 10)
    as (v & Hv & Hform & _ & _ & Hbounds).
  - discriminate.
  - exists v. split; [exact Hv |]. split.
    + rewrite Hform. vm_compute. reflexivity.
    + apply Hbounds.
      unfold sub_scores_in_unit_interval. vm_compute. intuition discriminate.
Defined.

(** The upper clamp acts: outside the data model, on an average sentiment
    of 5, the three terms add up to 2.2 and the returned score is 1. *)
Lemma score_is_clamped_from_above :
  exists v : Q,
    _calculate_lead_score 100 5 1 0 = Py.Ok v /\ v == 1 /\
    terms_sum 100 5 1 0 == 2.2.
Proof.
  eexists. split; [reflexivity |]. split; vm_compute; reflexivity.
Qed.

(** ** A contact with no classified message (C3) *)





(** ** The sentiment term (C8) *)

Lemma py_max_0_nonpositive (avg_sentiment : Q) :
  avg_sentiment <= 0 -> Py.max 0 avg_sentiment = 0.
Proof. intros H. unfold Py.max. rewrite py_ltb_false by exact H. reflexivity. Qed.

(** C8: for every average_sentiment <= 0 the sentiment term
    max(0, average_sentiment) * 0.3 is 0; the result of
    [_calculate_lead_score] is then that of the same contact with the
    neutral sentiment 0.0, and, when it is a score, it is the capped sum
    of the two other terms alone. *)
Theorem nonpositive_sentiment_contributes_zero
  (message_count : Z) (avg_sentiment : Q)
  (positive_messages negative_messages : Z) :
  avg_sentiment <= 0 ->
  sentiment_score avg_sentiment == 0 /\
  _calculate_lead_score message_count avg_sentiment
    positive_messages negative_messages
  = _calculate_lead_score message_count 0
      positive_messages negative_messages /\
  ((positive_messages + negative_messages <> 0)%Z ->
   exists v : Q,
     _calculate_lead_score message_count avg_sentiment
       positive_messages negative_messages = Py.Ok v /\
     v == Qmin (message_score message_count
                + inject_Z positive_messages
                  / inject_Z (positive_messages + negative_messages) * 0.3)
            1).
Proof.
  intros Hle.
  assert (Hs : sentiment_score avg_sentiment = 0 * 0.3)
    by (unfold sentiment_score; rewrite py_max_0_nonpositive by exact Hle;
        reflexivity).
  split; [rewrite Hs; reflexivity |].
  split.
  - unfold _calculate_lead_score. rewrite Hs. reflexivity.
  - intros Hden. rewrite _calculate_lead_score_ok by exact Hden.
    eexists. split; [reflexivity |].
    etransitivity; [apply py_min_Qmin |].
    apply Qmin_ext; [| reflexivity].
    rewrite Hs. ring.
Qed.

Lemma nonpositive_sentiment_contributes_zero_witness :
  sentiment_score (-0.5) == 0 /\
  _calculate_lead_score 25 (-0.5) 10 10 = _calculate_lead_score 25 0 10 10.
Proof.
  destruct (nonpositive_sentiment_contributes_zero 25 (-0.5) 10 10)
    as [Hzero [Hsame _]].
  - vm_compute. discriminate.
  - split; [exact Hzero | exact Hsame].
Defined.

(** ** The lower bound (C10) *)

(** C10: for every input with message_count >= 0, positive >= 0,
    negative >= 0 and positive + negative > 0, [_calculate_lead_score]
    returns a score, each of its three addends is non-negative, and so is
    the score, with no lower clamp applied. *)
Theorem score_nonneg_without_lower_clamp
  (message_count : Z) (avg_sentiment : Q)
  (positive_messages negative_messages : Z) :
  (0 <= message_count)%Z ->
  (0 <= positive_messages)%Z ->
  (0 <= negative_messages)%Z ->
  (0 < positive_messages + negative_messages)%Z ->
  0 <= message_score message_count /\
  0 <= sentiment_score avg_sentiment /\
  (exists e : Q,
      engagement_score positive_messages negative_messages = Py.Ok e /\
      0 <= e) /\
  (exists v : Q,
      _calculate_lead_score message_count avg_sentiment
        positive_messages negative_messages = Py.Ok v /\
      0 <= v).
Proof.
  intros Hm Hp Hn Ht.
  assert (Hden : (positive_messages + negative_messages <> 0)%Z) by lia.
  pose proof (message_score_nonneg message_count
                (message_count_div_100_nonneg message_count Hm)) as H1.
  pose proof (sentiment_score_nonneg avg_sentiment) as H2.
  pose proof (positive_ratio_nonneg positive_messages negative_messages Hp Ht)
    as H3.
  split; [exact H1 |]. split; [exact H2 |]. split.
  - rewrite engagement_score_ok by exact Hden.
    eexists. split; [reflexivity | lra].
  - rewrite _calculate_lead_score_ok by exact Hden.
    eexists. split; [reflexivity |].
    apply py_min_glb; lra.
Qed.

Lemma score_nonneg_without_lower_clamp_witness :
  exists v : Q, _calculate_lead_score 5 (-1) 1 4 = Py.Ok v /\ 0 <= v.
Proof.
  destruct (score_nonneg_without_lower_clamp 5 (-1) 1 4) as (_ & _ & _ & H);
    [lia | lia | lia | lia | exact H].
Defined.

(** ** The hot-leads query (C9) *)

Lemma _calculate_lead_score_le_1
  (message_count : Z) (avg_sentiment : Q)
  (positive_messages negative_messages : Z) (v : Q) :
  _calculate_lead_score message_count avg_sentiment
    positive_messages negative_messages = Py.Ok v ->
  v <= 1.
Proof.
  unfold _calculate_lead_score. intros H.
  destruct (engagement_score positive_messages negative_messages) as [e | x];
    simpl in H; [| discriminate].
  injection H as <-.
  eapply Qle_trans; [apply py_min_le_r | lra].
Qed.

Lemma scored_not_hot (c : contact) : scored c -> lead_score__gte 70 c = false.
Proof.
  intros (m & a & p & n & v & Hv & E).
  apply _calculate_lead_score_le_1 in Hv.
  unfold lead_score__gte, Py.geb.
  rewrite py_ltb_true by lra. reflexivity.
Qed.

Lemma search_contacts_scored (db : list contact) :
  Forall scored db -> search_contacts db 70 = [].
Proof.
  unfold search_contacts. induction 1 as [| c db Hc _ IH]; simpl.
  - reflexivity.
  - rewrite scored_not_hot by exact Hc. exact IH.
Qed.

(** C9: every value returned by [_calculate_lead_score] is at most 1.0,
    the hot-leads query selects lead_score >= 70, and so no contact whose
    stored score is an output of [_calculate_lead_score] passes the
    filter: over a database of such contacts the query selects nothing
    and the agent answers that there are no hot leads. *)
Theorem hot_leads_filter_never_matches_a_scored_contact :
  (forall (message_count : Z) (avg_sentiment : Q)
          (positive_messages negative_messages : Z) (v : Q),
      _calculate_lead_score message_count avg_sentiment
        positive_messages negative_messages = Py.Ok v ->
      v <= 1) /\
  (forall c : contact, scored c -> lead_score__gte 70 c = false) /\
  (forall db : list contact,
      Forall scored db ->
      search_contacts db 70 = [] /\
      process_query_hot_leads db
      = NoHotLeads "No hot leads found at this time.").
Proof.
  split; [exact _calculate_lead_score_le_1 |].
  split; [exact scored_not_hot |].
  intros db Hdb. unfold process_query_hot_leads.
  rewrite search_contacts_scored by exact Hdb.
  split; reflexivity.
Qed.

Lemma sample_contact_scored : scored sample_contact.
Proof.
  exists 60%Z, 0.6, 40%Z, 5%Z. eexists. split; [reflexivity |].
  vm_compute. reflexivity.
Qed.

Lemma hot_leads_filter_never_matches_a_scored_contact_witness :
  lead_score__gte 70 sample_contact = false /\
  process_query_hot_leads [sample_contact]
  = NoHotLeads "No hot leads found at this time.".
Proof.
  destruct hot_leads_filter_never_matches_a_scored_contact
    as (_ & Hfilter & Hquery).
  split.
  - apply Hfilter. exact sample_contact_scored.
  - apply (Hquery [sample_contact]).
    constructor; [exact sample_contact_scored | constructor].
Defined.

(** ** Categories (C5, C6) *)

Section CategoryRules.

Variable positive_threshold : Q.

Lemma categorize_high_value (message_count : Z) (avg_sentiment : Q) :
  (50 < message_count)%Z -> 0 < avg_sentiment ->
  _categorize_contact positive_threshold message_count avg_sentiment
  = HighValueLead.
Proof.
  intros Hm Hs. unfold _categorize_contact.
  rewrite (proj2 (Z.ltb_lt 50 message_count) Hm).
  rewrite py_ltb_true by exact Hs. reflexivity.
Qed.

Lemma categorize_active (message_count : Z) (avg_sentiment : Q) :
  (20 < message_count <= 50)%Z -> 0 < avg_sentiment ->
  _categorize_contact positive_threshold message_count avg_sentiment
  = ActiveContact.
Proof.
  intros [Hlo Hhi] Hs. unfold _categorize_contact.
  rewrite (proj2 (Z.ltb_ge 50 message_count) Hhi).
  rewrite (proj2 (Z.ltb_lt 20 message_count) Hlo).
  rewrite py_ltb_true by exact Hs. reflexivity.
Qed.

Lemma categorize_regular (message_count : Z) (avg_sentiment : Q) :
  (10 < message_count <= 20)%Z ->
  _categorize_contact positive_threshold message_count avg_sentiment
  = RegularContact.
Proof.
  intros [Hlo Hhi]. unfold _categorize_contact.
  rewrite (proj2 (Z.ltb_ge 50 message_count)) by lia.
  rewrite (proj2 (Z.ltb_ge 20 message_count) Hhi).
  rewrite (proj2 (Z.ltb_lt 10 message_count) Hlo).
  reflexivity.
Qed.

Lemma categorize_low_count (message_count : Z) (avg_sentiment : Q) :
  (message_count <= 10)%Z ->
  _categorize_contact positive_threshold message_count avg_sentiment
  = if Py.ltb positive_threshold avg_sentiment then PositiveContact
    else Contact.
Proof.
  intros Hhi. unfold _categorize_contact.
  rewrite (proj2 (Z.ltb_ge 50 message_count)) by lia.
  rewrite (proj2 (Z.ltb_ge 20 message_count)) by lia.
  rewrite (proj2 (Z.ltb_ge 10 message_count) Hhi).
  reflexivity.
Qed.

(** With a positive sentiment, the tier is decided by the band of the
    message count. *)
Lemma tier_by_band (message_count : Z) (avg_sentiment : Q) :
  0 < avg_sentiment ->
  ((message_count <= 10)%Z /\
   tier (_categorize_contact positive_threshold message_count avg_sentiment)
   = if Py.ltb positive_threshold avg_sentiment then 1%nat else 0%nat) \/
  ((10 < message_count <= 20)%Z /\
   tier (_categorize_contact positive_threshold message_count avg_sentiment) = 2%nat) \/
  ((20 < message_count <= 50)%Z /\
   tier (_categorize_contact positive_threshold message_count avg_sentiment) = 3%nat) \/
  ((50 < message_count)%Z /\
   tier (_categorize_contact positive_threshold message_count avg_sentiment) = 4%nat).
Proof.
  intros Hs.
  destruct (Z_le_gt_dec message_count 10) as [H10 | H10].
  { left. split; [exact H10 |].
    rewrite (categorize_low_count message_count avg_sentiment H10).
    destruct (Py.ltb positive_threshold avg_sentiment); reflexivity. }
  destruct (Z_le_gt_dec message_count 20) as [H20 | H20].
  { right; left. split; [lia |].
    rewrite categorize_regular by lia. reflexivity. }
  destruct (Z_le_gt_dec message_count 50) as [H50 | H50].
  { right; right; left. split; [lia |].
    rewrite categorize_active by (lia || exact Hs). reflexivity. }
  right; right; right. split; [lia |].
  rewrite categorize_high_value by (lia || exact Hs). reflexivity.
Qed.

End CategoryRules.

(** C5: the rules are tried in priority order and the first match wins:
    every aggregate with message_count > 50 and average_sentiment > 0 is a
    High-Value Lead, whatever the Positive Contact threshold and however
    high its sentiment, and so is none of Active Contact, Regular Contact
    or Positive Contact. *)
Theorem high_volume_positive_contact_is_high_value_lead
  (positive_threshold : Q) (message_count : Z) (average_sentiment : Q) :
  (50 < message_count)%Z ->
  0 < average_sentiment ->
  _categorize_contact positive_threshold message_count average_sentiment
  = HighValueLead /\
  _categorize_contact positive_threshold message_count average_sentiment
  <> ActiveContact /\
  _categorize_contact positive_threshold message_count average_sentiment
  <> RegularContact /\
  _categorize_contact positive_threshold message_count average_sentiment
  <> PositiveContact.
Proof.
  intros Hm Hs.
  rewrite (categorize_high_value positive_threshold _ _ Hm Hs).
  repeat split; discriminate.
Qed.

Lemma high_volume_positive_contact_is_high_value_lead_witness :
  _categorize_contact 0.5 60 1 = HighValueLead /\
  _categorize_contact 0.5 60 1 <> PositiveContact.
Proof.
  destruct (high_volume_positive_contact_is_high_value_lead 0.5 60 1)
    as (H & _ & _ & Hn).
  - lia.
  - reflexivity.
  - split; [exact H | exact Hn].
Defined.

(** C6: with average_sentiment fixed at a positive value, the category is
    Regular Contact for 10 < message_count <= 20, Active Contact for
    20 < message_count <= 50 and High-Value Lead above 50, and a larger
    message_count never gives a category of a lower tier. *)
Theorem category_monotone_in_message_count
  (positive_threshold : Q) (average_sentiment : Q) :
  0 < average_sentiment ->
  (forall m : Z, (10 < m <= 20)%Z ->
     _categorize_contact positive_threshold m average_sentiment
     = RegularContact) /\
  (forall m : Z, (20 < m <= 50)%Z ->
     _categorize_contact positive_threshold m average_sentiment
     = ActiveContact) /\
  (forall m : Z, (50 < m)%Z ->
     _categorize_contact positive_threshold m average_sentiment
     = HighValueLead) /\
  (forall m m' : Z, (m <= m')%Z ->
     (tier (_categorize_contact positive_threshold m average_sentiment)
      <= tier (_categorize_contact positive_threshold m' average_sentiment))%nat).
Proof.
  intros Hs. repeat split.
  - intros m Hm. apply categorize_regular. exact Hm.
  - intros m Hm. apply categorize_active; [exact Hm | exact Hs].
  - intros m Hm. apply categorize_high_value; [exact Hm | exact Hs].
  - intros m m' Hle.
    destruct (tier_by_band positive_threshold m average_sentiment Hs)
      as [[B T] | [[B T] | [[B T] | [B T]]]];
    destruct (tier_by_band positive_threshold m' average_sentiment Hs)
      as [[B' T'] | [[B' T'] | [[B' T'] | [B' T']]]];
    rewrite T, T';
    destruct (Py.ltb positive_threshold average_sentiment); lia.
Qed.

Lemma category_monotone_in_message_count_witness :
  map (fun m => _categorize_contact 0.5 m 0.9) [10; 11; 20; 21; 50; 51]%Z
  = [PositiveContact; RegularContact; RegularContact;
     ActiveContact; ActiveContact; HighValueLead] /\
  (tier (_categorize_contact 0.5 10 0.9)
   <= tier (_categorize_contact 0.5 51 0.9))%nat.
Proof.
  destruct (category_monotone_in_message_count 0.5 0.9) as (_ & _ & _ & Hmono).
  - lra.
  - split; [reflexivity | apply Hmono; lia].
Defined.

(** ** The same properties over binary64

    The statements above are over exact rationals.  The ones below are
    about the function as Python computes it, with rounding, signed
    zeros, infinities and NaN. *)

(** *** The sentiment term and the hot-leads filter *)

Lemma b64_zero : Prim2SF 0%float = S754_zero false.
Proof. reflexivity. Qed.

Lemma b64_not_gt_0 (x : float) :
  (x <=? 0)%float = true -> (0 <? x)%float = false.
Proof.
  rewrite FloatAxioms.leb_spec, FloatAxioms.ltb_spec, b64_zero.
  destruct (Prim2SF x) as [s | s | | s m e];
    try destruct s; cbv [SFleb SFltb SFcompare]; congruence.
Qed.

(** Over binary64 too, a sentiment that is not positive contributes
    nothing: the sentiment term is +0.0 and the result is that of the
    neutral sentiment 0.0. *)
Theorem binary64_nonpositive_sentiment_contributes_zero
  (message_count : Z) (avg_sentiment : float)
  (positive_messages negative_messages : Z) :
  (avg_sentiment <=? 0)%float = true ->
  Binary64.sentiment_score avg_sentiment = 0%float /\
  Binary64._calculate_lead_score message_count avg_sentiment
    positive_messages negative_messages
  = Binary64._calculate_lead_score message_count 0
      positive_messages negative_messages.
Proof.
  intros H.
  assert (Hs : Binary64.sentiment_score avg_sentiment = 0%float).
  { unfold Binary64.sentiment_score, Binary64.max.
    rewrite (b64_not_gt_0 _ H). reflexivity. }
  split; [exact Hs |].
  unfold Binary64._calculate_lead_score. rewrite Hs. reflexivity.
Qed.

Lemma binary64_nonpositive_sentiment_contributes_zero_witness :
  Binary64.sentiment_score (-0.5) = 0%float /\
  Binary64._calculate_lead_score 25 (-0.5) 10 10
  = Binary64._calculate_lead_score 25 0 10 10.
Proof.
  apply (binary64_nonpositive_sentiment_contributes_zero 25 (-0.5) 10 10).
  reflexivity.
Defined.

Lemma b64_one : Prim2SF 1%float = S754_finite false 4503599627370496 (-52).
Proof. reflexivity. Qed.

Lemma b64_seventy : Prim2SF 70%float = S754_finite false 4925812092436480 (-46).
Proof. reflexivity. Qed.

(** A float that is not above 1.0 (NaN included) is not at least 70. *)
Lemma b64_not_above_1_not_hot (x : float) :
  (1 <? x)%float = false -> (70 <=? x)%float = false.
Proof.
  rewrite FloatAxioms.ltb_spec, FloatAxioms.leb_spec, b64_one, b64_seventy.
  destruct (Prim2SF x) as [s | s | | s m e];
    try destruct s; cbv [SFleb SFltb SFcompare]; try congruence.
  destruct (Z.compare_spec (-52) e) as [E | E | E]; try congruence.
  - subst e. intros _. reflexivity.
  - intros _. rewrite (proj2 (Z.compare_gt_iff (-46) e)) by lia. reflexivity.
Qed.

Lemma b64_min_1_not_hot (x : float) :
  Binary64.lead_score__gte 70 (Binary64.min x 1.0) = false.
Proof.
  unfold Binary64.lead_score__gte, Binary64.min.
  destruct (1.0 <? x)%float eqn:E.
  - reflexivity.
  - apply b64_not_above_1_not_hot. exact E.
Qed.

(** Over binary64 too, no output of [_calculate_lead_score] passes the
    hot-leads filter [lead_score__gte 70]. *)
Theorem binary64_hot_leads_filter_never_matches
  (message_count : Z) (avg_sentiment : float)
  (positive_messages negative_messages : Z) (v : float) :
  Binary64._calculate_lead_score message_count avg_sentiment
    positive_messages negative_messages = Py.Ok v ->
  Binary64.lead_score__gte 70 v = false.
Proof.
  unfold Binary64._calculate_lead_score. intros H.
  destruct (Binary64.engagement_score positive_messages negative_messages)
    as [e | x]; simpl in H; [| discriminate].
  injection H as <-. apply b64_min_1_not_hot.
Qed.

Lemma binary64_hot_leads_filter_never_matches_witness :
  Binary64.lead_score__gte 70 0.84666666666666668%float = false.
Proof.
  apply (binary64_hot_leads_filter_never_matches 60 0.6 40 5).
  vm_compute. reflexivity.
Defined.

(** *** Signs through rounding

    [binary_round_aux], the rounding step of every binary64 operation,
    keeps a non-negative mantissa non-negative: its two right shifts and
    the rounding to nearest even never produce a negative number. *)

Lemma shr_1_nonneg (mrs : shr_record) :
  (0 <= shr_m mrs)%Z -> (0 <= shr_m (shr_1 mrs))%Z.
Proof.
  destruct mrs as [m r s]. simpl.
  destruct m as [| [p | p |] | p]; simpl; lia.
Qed.

Lemma iter_shr_1_nonneg (n : positive) (mrs : shr_record) :
  (0 <= shr_m mrs)%Z -> (0 <= shr_m (iter_pos shr_1 n mrs))%Z.
Proof.
  revert mrs. induction n as [n IH | n IH |]; intros mrs H; simpl.
  - apply IH, IH, shr_1_nonneg, H.
  - apply IH, IH, H.
  - apply shr_1_nonneg, H.
Qed.

Lemma shr_fexp_nonneg (m e : Z) (l : location) :
  (0 <= m)%Z -> (0 <= shr_m (fst (shr_fexp prec emax m e l)))%Z.
Proof.
  intros H. unfold shr_fexp, shr.
  assert (H0 : (0 <= shr_m (shr_record_of_loc m l))%Z)
    by (destruct l as [| []]; exact H).
  destruct (fexp prec emax (Zdigits2 m + e) - e)%Z; simpl;
    [exact H0 | apply iter_shr_1_nonneg, H0 | exact H0].
Qed.

Lemma round_nearest_even_nonneg (m : Z) (l : location) :
  (0 <= m)%Z -> (0 <= round_nearest_even m l)%Z.
Proof.
  intros H. destruct l as [| []]; simpl; try lia.
  destruct (Z.even m); lia.
Qed.

Lemma binary_round_aux_nonneg (m e : Z) (l : location) :
  (0 <= m)%Z -> sf_nonneg (binary_round_aux prec emax false m e l) = true.
Proof.
  intros H. unfold binary_round_aux.
  pose proof (shr_fexp_nonneg m e l H) as H1.
  destruct (shr_fexp prec emax m e l) as [mrs' e']. simpl in H1.
  pose proof (shr_fexp_nonneg _ e' loc_Exact
                (round_nearest_even_nonneg _ (loc_of_shr_record mrs') H1)) as H2.
  destruct (shr_fexp prec emax _ e' loc_Exact) as [mrs'' e'']. simpl in H2.
  destruct (shr_m mrs'') as [| q | q]; [reflexivity | | lia].
  destruct (e'' <=? emax - prec)%Z; reflexivity.
Qed.

(** *** Integers below 2^53 are floats

    A positive integer below 2^53 has at most 53 binary digits; shifted
    left to exactly 53, it is its own rounding.  So [of_int] of such a
    count is a positive finite float, neither zero nor infinite. *)

Lemma digits2_pos_lower (p : positive) :
  (2 ^ (Zpos (digits2_pos p) - 1) <= Zpos p)%Z.
Proof.
  induction p as [p IH | p IH |]; simpl digits2_pos.
  - rewrite Pos2Z.inj_succ.
    replace (Z.succ (Zpos (digits2_pos p)) - 1)%Z
      with (Z.succ (Zpos (digits2_pos p) - 1))%Z by lia.
    rewrite Z.pow_succ_r by lia. lia.
  - rewrite Pos2Z.inj_succ.
    replace (Z.succ (Zpos (digits2_pos p)) - 1)%Z
      with (Z.succ (Zpos (digits2_pos p) - 1))%Z by lia.
    rewrite Z.pow_succ_r by lia. lia.
  - simpl. lia.
Qed.

Lemma digits2_pos_le_53 (p : positive) :
  (Zpos p < 2 ^ 53)%Z -> (Zpos (digits2_pos p) <= 53)%Z.
Proof.
  intros H. pose proof (digits2_pos_lower p) as L.
  destruct (Z_le_gt_dec (Zpos (digits2_pos p)) 53) as [Hle | Hgt]; [exact Hle |].
  exfalso.
  assert (2 ^ 53 <= 2 ^ (Zpos (digits2_pos p) - 1))%Z
    by (apply Z.pow_le_mono_r; lia).
  lia.
Qed.

Lemma digits2_pos_iter_xO (p k : positive) :
  digits2_pos (Pos.iter xO p k) = (digits2_pos p + k)%positive.
Proof.
  induction k as [| k IH] using Pos.peano_ind.
  - simpl. lia.
  - rewrite Pos.iter_succ. simpl. rewrite IH. lia.
Qed.

Lemma binary_round_aux_exact (s : bool) (m : positive) (e : Z) :
  Zpos (digits2_pos m) = 53%Z -> (-1074 <= e <= 971)%Z ->
  binary_round_aux prec emax s (Zpos m) e loc_Exact = S754_finite s m e.
Proof.
  intros Hd He.
  assert (Hshift : (fexp prec emax (Zdigits2 (Zpos m) + e) - e = 0)%Z).
  { unfold fexp, SpecFloat.emin, Zdigits2. rewrite Hd.
    change prec with 53%Z. change emax with 1024%Z. lia. }
  unfold binary_round_aux.
  assert (Hs : shr_fexp prec emax (Zpos m) e loc_Exact
               = ({| shr_m := Zpos m; shr_r := false; shr_s := false |}, e)).
  { unfold shr_fexp. rewrite Hshift. reflexivity. }
  rewrite Hs. cbn [shr_m loc_of_shr_record round_nearest_even].
  rewrite Hs. cbn [shr_m].
  change (emax - prec)%Z with 971%Z.
  rewrite (proj2 (Z.leb_le e 971)) by lia. reflexivity.
Qed.

Lemma binary_round_small (p : positive) :
  (Zpos p < 2 ^ 53)%Z ->
  exists (m : positive) (e : Z),
    binary_round prec emax false p 0 = S754_finite false m e.
Proof.
  intros H. pose proof (digits2_pos_le_53 p H) as Hd.
  unfold binary_round.
  assert (Hf : fexp prec emax (Zpos (digits2_pos p) + 0)
               = (Zpos (digits2_pos p) - 53)%Z).
  { unfold fexp, SpecFloat.emin. change prec with 53%Z. change emax with 1024%Z.
    lia. }
  rewrite Hf. unfold shl_align.
  destruct (Zpos (digits2_pos p) - 53 - 0)%Z as [| k | k] eqn:E; [| lia |].
  - exists p, 0%Z. apply binary_round_aux_exact; lia.
  - exists (Pos.iter xO p k), (Zpos (digits2_pos p) - 53)%Z.
    apply binary_round_aux_exact; [| lia].
    rewrite digits2_pos_iter_xO. lia.
Qed.

Lemma b64_nonneg_leb (x : float) : b64_nonneg x -> (0 <=? x)%float = true.
Proof.
  unfold b64_nonneg. rewrite FloatAxioms.leb_spec, b64_zero.
  destruct (Prim2SF x) as [s | s | | s m e];
    try destruct s; cbv [SFleb SFcompare sf_nonneg negb]; congruence.
Qed.

Lemma to_Z_of_Z_small (z : Z) :
  (0 <= z < 2 ^ 53)%Z -> Uint63.to_Z (Uint63.of_Z z) = z.
Proof.
  intros H. rewrite Uint63.of_Z_spec. apply Z.mod_small.
  change wB with (2 ^ 63)%Z.
  assert (2 ^ 53 < 2 ^ 63)%Z by (apply Z.pow_lt_mono_r; lia). lia.
Qed.

Lemma of_int_positive (z : Z) :
  (0 < z < 2 ^ 53)%Z ->
  exists (m : positive) (e : Z),
    Prim2SF (Binary64.of_int z) = S754_finite false m e.
Proof.
  intros H. destruct z as [| p | p]; try lia.
  unfold Binary64.of_int.
  rewrite of_uint63_spec, to_Z_of_Z_small by lia.
  apply binary_round_small. lia.
Qed.

Lemma of_int_nonneg (z : Z) :
  (0 <= z < 2 ^ 53)%Z -> b64_nonneg (Binary64.of_int z).
Proof.
  intros H. destruct (Z.eq_dec z 0) as [-> | N].
  - reflexivity.
  - destruct (of_int_positive z) as (m & e & E); [lia |].
    unfold b64_nonneg. rewrite E. reflexivity.
Qed.

(** *** Signs through the operations of the function *)

Lemma SFdiv_nonneg (x : spec_float) (m : positive) (e : Z) :
  sf_nonneg x = true ->
  sf_nonneg (SF64div x (S754_finite false m e)) = true.
Proof.
  destruct x as [s | s | | s mx ex]; simpl; intros H;
    try destruct s; try discriminate; try reflexivity.
  unfold SFdiv_core_binary.
  set (m' := match _ with Z0 => _ | Zpos _ => _ | Zneg _ => _ end).
  assert (Hm' : (0 <= m')%Z).
  { subst m'. destruct (_ - _ - _)%Z; try lia.
    apply Z.shiftl_nonneg. lia. }
  pose proof (Z.div_pos m' (Zpos m) Hm' eq_refl) as Hq.
  unfold Z.div in Hq.
  destruct (Z.div_eucl m' (Zpos m)) as [q r].
  apply binary_round_aux_nonneg. exact Hq.
Qed.

Lemma SFmul_nonneg (x : spec_float) (m : positive) (e : Z) :
  sf_nonneg x = true ->
  sf_nonneg (SF64mul x (S754_finite false m e)) = true.
Proof.
  destruct x as [s | s | | s mx ex]; simpl; intros H;
    try destruct s; try discriminate; try reflexivity.
  apply binary_round_aux_nonneg. lia.
Qed.

Lemma SFadd_nonneg (x y : spec_float) :
  sf_nonneg x = true -> sf_nonneg y = true ->
  sf_nonneg (SF64add x y) = true.
Proof.
  destruct x as [sx | sx | | sx mx ex]; destruct y as [sy | sy | | sy my ey];
    simpl; intros Hx Hy;
    try destruct sx; try destruct sy; try discriminate; try reflexivity.
  unfold binary_normalize, cond_Zopp. cbn [Z.add].
  unfold binary_round.
  destruct (shl_align _ _ _) as [mz ez].
  apply binary_round_aux_nonneg. lia.
Qed.

Lemma b64_finite_constants :
  Prim2SF 100%float = S754_finite false 7036874417766400 (-46) /\
  Prim2SF 0.3%float = S754_finite false 5404319552844595 (-54) /\
  Prim2SF 0.4%float = S754_finite false 7205759403792794 (-54).
Proof. repeat split; reflexivity. Qed.

Lemma b64_div_nonneg (x y : float) (m : positive) (e : Z) :
  b64_nonneg x -> Prim2SF y = S754_finite false m e -> b64_nonneg (x / y).
Proof.
  unfold b64_nonneg. intros Hx Hy.
  rewrite FloatAxioms.div_spec, Hy. apply SFdiv_nonneg, Hx.
Qed.

Lemma b64_mul_nonneg (x y : float) (m : positive) (e : Z) :
  b64_nonneg x -> Prim2SF y = S754_finite false m e -> b64_nonneg (x * y).
Proof.
  unfold b64_nonneg. intros Hx Hy.
  rewrite FloatAxioms.mul_spec, Hy. apply SFmul_nonneg, Hx.
Qed.

Lemma b64_add_nonneg (x y : float) :
  b64_nonneg x -> b64_nonneg y -> b64_nonneg (x + y).
Proof.
  unfold b64_nonneg. intros Hx Hy.
  rewrite FloatAxioms.add_spec. apply SFadd_nonneg; assumption.
Qed.

Lemma b64_min_nonneg (x y : float) :
  b64_nonneg x -> b64_nonneg y -> b64_nonneg (Binary64.min x y).
Proof. unfold Binary64.min. destruct (y <? x)%float; auto. Qed.

Lemma b64_max_0_nonneg (x : float) : b64_nonneg (Binary64.max 0 x).
Proof.
  unfold Binary64.max. destruct (0 <? x)%float eqn:E; [| reflexivity].
  rewrite FloatAxioms.ltb_spec, b64_zero in E. unfold b64_nonneg.
  destruct (Prim2SF x) as [s | s | | s m e];
    try destruct s; cbv [SFltb SFcompare] in E; try discriminate; reflexivity.
Qed.

Lemma b64_message_score_nonneg (message_count : Z) :
  (0 <= message_count < 2 ^ 53)%Z ->
  b64_nonneg (Binary64.message_score message_count).
Proof.
  intros H. unfold Binary64.message_score.
  apply b64_min_nonneg; [| reflexivity].
  eapply b64_div_nonneg; [apply of_int_nonneg, H | apply b64_finite_constants].
Qed.

Lemma b64_sentiment_score_nonneg (avg_sentiment : float) :
  b64_nonneg (Binary64.sentiment_score avg_sentiment).
Proof.
  unfold Binary64.sentiment_score.
  eapply b64_mul_nonneg; [apply b64_max_0_nonneg | apply b64_finite_constants].
Qed.

Lemma b64_not_above_1_le_1 (x : float) :
  b64_nonneg x -> (1 <? x)%float = false -> (x <=? 1)%float = true.
Proof.
  unfold b64_nonneg.
  rewrite FloatAxioms.ltb_spec, FloatAxioms.leb_spec, b64_one.
  generalize 4503599627370496%positive as one_m.
  intros one_m.
  destruct (Prim2SF x) as [s | s | | s m e];
    try destruct s; cbv [SFleb SFltb SFcompare sf_nonneg negb];
    try congruence.
  intros _. rewrite (Z.compare_antisym e (-52)).
  destruct (e ?= -52)%Z; cbn [CompOpp]; try congruence.
  change (Pos.compare_cont Eq one_m m) with (one_m ?= m)%positive.
  change (Pos.compare_cont Eq m one_m) with (m ?= one_m)%positive.
  rewrite (Pos.compare_antisym m one_m).
  destruct (m ?= one_m)%positive; cbn [CompOpp]; congruence.
Qed.

(** *** The score is a number of the unit interval *)

(** Over binary64 too, for counts below 2^53 with some message
    classified, [_calculate_lead_score] returns a score, and the score is
    a number of [0.0, 1.0] (not NaN), whatever the sentiment. *)
Theorem binary64_score_within_unit_interval
  (message_count : Z) (avg_sentiment : float)
  (positive_messages negative_messages : Z) :
  (0 <= message_count < 2 ^ 53)%Z ->
  (0 <= positive_messages)%Z ->
  (0 <= negative_messages)%Z ->
  (0 < positive_messages + negative_messages < 2 ^ 53)%Z ->
  exists v : float,
    Binary64._calculate_lead_score message_count avg_sentiment
      positive_messages negative_messages = Py.Ok v /\
    (0 <=? v)%float = true /\ (v <=? 1)%float = true.
Proof.
  intros Hm Hp Hn Ht.
  unfold Binary64._calculate_lead_score, Binary64.engagement_score,
    Binary64.truediv, total_messages.
  destruct (Z.eqb_spec (positive_messages + negative_messages) 0) as [E | _];
    [lia |].
  cbn [Py.bind]. eexists. split; [reflexivity |].
  destruct (of_int_positive (positive_messages + negative_messages) Ht)
    as (m & e & Hden).
  set (total := (_ + _ + _)%float).
  assert (Htotal : b64_nonneg total).
  { subst total. repeat apply b64_add_nonneg.
    - apply b64_message_score_nonneg, Hm.
    - apply b64_sentiment_score_nonneg.
    - eapply b64_mul_nonneg; [| apply b64_finite_constants].
      eapply b64_div_nonneg; [apply of_int_nonneg; lia | exact Hden]. }
  split.
  - apply b64_nonneg_leb, b64_min_nonneg; [exact Htotal | reflexivity].
  - unfold Binary64.min. destruct (1.0 <? total)%float eqn:E.
    + reflexivity.
    + apply b64_not_above_1_le_1; [exact Htotal | exact E].
Qed.

Lemma binary64_score_within_unit_interval_witness :
  exists v : float,
    Binary64._calculate_lead_score 5 (-1) 1 4 = Py.Ok v /\
    (0 <=? v)%float = true /\ (v <=? 1)%float = true.
Proof.
  apply (binary64_score_within_unit_interval 5 (-1) 1 4); lia.
Defined.

(** *** Worked values

    The engagement term as Python computes it: 0.25 at 25 messages, where
    0.4 * min(25 / 100, 1.0) is 0.1, and the cap 0.4 at 40, 60 and 100
    messages. *)
Lemma binary64_worked_values :
  Binary64.message_score 25 = 0.25%float /\
  Binary64.message_score 40 = 0.4%float /\
  Binary64.message_score 60 = 0.4%float /\
  Binary64.message_score 100 = 0.4%float.
Proof. repeat split; vm_compute; reflexivity. Qed.

(** * More of the code *)

(** ** The score as a function of its four arguments *)

Lemma py_min_mono (a a' c : Q) : a <= a' -> Py.min a c <= Py.min a' c.
Proof.
  intros H. unfold Py.min.
  destruct (py_ltb_spec c a); destruct (py_ltb_spec c a'); lra.
Qed.

Lemma py_max_mono (c b b' : Q) : b <= b' -> Py.max c b <= Py.max c b'.
Proof.
  intros H. unfold Py.max.
  destruct (py_ltb_spec c b); destruct (py_ltb_spec c b'); lra.
Qed.

Lemma message_score_mono (m m' : Z) :
  (m <= m')%Z -> message_score m <= message_score m'.
Proof.
  intros H. unfold message_score. apply py_min_mono.
  rewrite !div_100. apply inject_Z_le in H. lra.
Qed.

Lemma sentiment_score_mono (a a' : Q) :
  a <= a' -> sentiment_score a <= sentiment_score a'.
Proof.
  intros H. unfold sentiment_score.
  pose proof (py_max_mono 0 a a' H). lra.
Qed.

Lemma Qdiv_le_cross (a b c d : Q) :
  0 < b -> 0 < d -> a * d <= c * b -> a / b <= c / d.
Proof.
  intros Hb Hd H.
  apply Qle_shift_div_r; [exact Hb |].
  unfold Qdiv. rewrite <- Qmult_assoc, (Qmult_comm (/ d)), Qmult_assoc.
  apply Qle_shift_div_l; [exact Hd | exact H].
Qed.

Lemma positive_ratio_mono (p p' n n' : Z) :
  (0 <= p <= p')%Z -> (0 <= n' <= n)%Z ->
  (0 < p + n)%Z -> (0 < p' + n')%Z ->
  inject_Z p / inject_Z (p + n) <= inject_Z p' / inject_Z (p' + n').
Proof.
  intros Hp Hn Hd Hd'.
  apply Qdiv_le_cross.
  - change 0 with (inject_Z 0). rewrite <- Zlt_Qlt. lia.
  - change 0 with (inject_Z 0). rewrite <- Zlt_Qlt. lia.
  - rewrite <- !inject_Z_mult, <- Zle_Qle. nia.
Qed.

(** The score never goes down when a contact has more messages, a higher
    average sentiment, more positive messages and fewer negative ones
    (counts not negative, some message classified for the contact
    before and for the contact after). *)
Theorem score_is_monotone
  (message_count message_count' : Z) (avg_sentiment avg_sentiment' : Q)
  (positive positive' negative negative' : Z) :
  (message_count <= message_count')%Z ->
  avg_sentiment <= avg_sentiment' ->
  (0 <= positive <= positive')%Z ->
  (0 <= negative' <= negative)%Z ->
  (0 < positive + negative)%Z ->
  (0 < positive' + negative')%Z ->
  exists v v' : Q,
    _calculate_lead_score message_count avg_sentiment positive negative
    = Py.Ok v /\
    _calculate_lead_score message_count' avg_sentiment' positive' negative'
    = Py.Ok v' /\
    v <= v'.
Proof.
  intros Hm Ha Hp Hn Hd Hd'.
  rewrite !_calculate_lead_score_ok by lia.
  do 2 eexists. split; [reflexivity |]. split; [reflexivity |].
  apply py_min_mono.
  pose proof (message_score_mono _ _ Hm).
  pose proof (sentiment_score_mono _ _ Ha).
  pose proof (positive_ratio_mono _ _ _ _ Hp Hn Hd Hd').
  lra.
Qed.

Lemma score_is_monotone_witness :
  exists v v' : Q,
    _calculate_lead_score 25 0.1 0 10 = Py.Ok v /\
    _calculate_lead_score 60 0.6 40 0 = Py.Ok v' /\
    v <= v'.
Proof.
  apply (score_is_monotone 25 60 0.1 0.6 0 40 10 0); try lia.
  vm_compute. discriminate.
Defined.

Lemma positive_ratio_le_1 (p n : Z) :
  (0 <= n)%Z -> (0 < p + n)%Z ->
  inject_Z p / inject_Z (p + n) <= 1.
Proof.
  intros Hn Hd.
  apply Qle_shift_div_r.
  - change 0 with (inject_Z 0). rewrite <- Zlt_Qlt. lia.
  - rewrite Qmult_1_l. rewrite <- Zle_Qle. lia.
Qed.

Lemma sentiment_score_le (a : Q) : a <= 1 -> sentiment_score a <= 0.3.
Proof.
  intros H. unfold sentiment_score, Py.max.
  destruct (py_ltb_spec 0 a); lra.
Qed.

(** On an input of the data model (sentiment at most 1, no negative
    count of negative messages, some message classified) the final
    [min(..., 1.0)] changes nothing: the score is the sum of the three
    terms itself, for every message count. *)
Theorem upper_clamp_never_binds
  (message_count : Z) (avg_sentiment : Q) (positive negative : Z) :
  avg_sentiment <= 1 ->
  (0 <= negative)%Z ->
  (0 < positive + negative)%Z ->
  exists e : Q,
    engagement_score positive negative = Py.Ok e /\
    _calculate_lead_score message_count avg_sentiment positive negative
    = Py.Ok (message_score message_count + sentiment_score avg_sentiment + e).
Proof.
  intros Ha Hn Hd.
  rewrite engagement_score_ok by lia.
  eexists. split; [reflexivity |].
  rewrite _calculate_lead_score_ok by lia.
  f_equal. unfold Py.min at 1.
  rewrite py_ltb_false; [reflexivity |].
  pose proof (py_min_le_r (inject_Z message_count / 100) 0.4) as H1.
  fold (message_score message_count) in H1.
  pose proof (sentiment_score_le _ Ha) as H2.
  pose proof (positive_ratio_le_1 positive negative Hn Hd) as H3.
  lra.
Qed.

Lemma upper_clamp_never_binds_witness :
  exists e : Q,
    engagement_score 40 0 = Py.Ok e /\
    _calculate_lead_score 1000 1 40 0
    = Py.Ok (message_score 1000 + sentiment_score 1 + e).
Proof.
  apply (upper_clamp_never_binds 1000 1 40 0); [| lia | lia].
  vm_compute. discriminate.
Defined.

(** A contact is in the high-value outreach tier (score above 0.8) only
    if it has more than 20 messages, an average sentiment above 1/3, and
    more than a third of its classified messages positive. *)
Theorem high_value_outreach_needs_all_three
  (message_count : Z) (avg_sentiment : Q) (positive negative : Z) (v : Q) :
  avg_sentiment <= 1 ->
  (0 <= positive)%Z ->
  (0 <= negative)%Z ->
  _calculate_lead_score message_count avg_sentiment positive negative
  = Py.Ok v ->
  outreach_tier v = HighValueOutreach ->
  (20 < message_count)%Z /\
  1 # 3 < avg_sentiment /\
  (negative < 2 * positive)%Z.
Proof.
  intros Ha Hp Hn Hv Ht.
  assert (Hd : (0 < positive + negative)%Z).
  { destruct (Z.eq_dec (positive + negative) 0) as [E | N]; [| lia].
    rewrite _calculate_lead_score_raises in Hv by exact E. discriminate. }
  rewrite _calculate_lead_score_ok in Hv by lia. injection Hv as <-.
  set (ratio := inject_Z positive / inject_Z (positive + negative)) in *.
  set (total := message_score message_count + sentiment_score avg_sentiment
                + ratio * 0.3) in *.
  assert (Hgt : 0.8 < Py.min total 1.0).
  { unfold outreach_tier in Ht.
    destruct (py_ltb_spec 0.8 (Py.min total 1.0)) as [H | _]; [exact H |].
    destruct (Py.ltb 0.6 (Py.min total 1.0)); discriminate. }
  assert (Hsum : 0.8 < total).
  { eapply Qlt_le_trans; [exact Hgt |].
    unfold Py.min. destruct (py_ltb_spec 1.0 total); lra. }
  pose proof (py_min_le_r (inject_Z message_count / 100) 0.4) as M1.
  fold (message_score message_count) in M1.
  assert (M2 : message_score message_count <= inject_Z message_count / 100).
  { unfold message_score, Py.min.
    destruct (py_ltb_spec 0.4 (inject_Z message_count / 100)); lra. }
  pose proof (sentiment_score_le _ Ha) as S1.
  assert (S2 : sentiment_score avg_sentiment <= 0.3 * Qmax 0 avg_sentiment).
  { unfold sentiment_score. rewrite py_max_Qmax. lra. }
  pose proof (positive_ratio_le_1 positive negative Hn Hd) as R1.
  fold ratio in R1. subst total.
  split; [| split].
  - assert (H20 : 20 < inject_Z message_count) by (rewrite div_100 in M2; lra).
    change 20 with (inject_Z 20) in H20. rewrite <- Zlt_Qlt in H20. exact H20.
  - destruct (Q.max_spec 0 avg_sentiment) as [[_ E] | [_ E]];
      rewrite E in S2; lra.
  - assert (R : 1 # 3 < ratio) by lra.
    assert (HD : 0 < inject_Z (positive + negative))
      by (change 0 with (inject_Z 0); rewrite <- Zlt_Qlt; lia).
    assert (E : inject_Z (positive + negative) * ratio == inject_Z positive)
      by (apply Qmult_div_r; lra).
    assert (R' : inject_Z (positive + negative) < inject_Z (3 * positive)).
    { rewrite inject_Z_mult. change (inject_Z 3) with 3. nra. }
    rewrite <- Zlt_Qlt in R'. lia.
Qed.

Lemma high_value_outreach_needs_all_three_witness :
  (20 < 60)%Z /\ 1 # 3 < 0.6 /\ (5 < 2 * 40)%Z.
Proof.
  eapply (high_value_outreach_needs_all_three 60 0.6 40 5).
  - vm_compute. discriminate.
  - lia.
  - lia.
  - reflexivity.
  - vm_compute. reflexivity.
Defined.

(** ** The custom category *)

(** Over exact rationals, the custom rule names VIP only contacts that
    the rule list makes High-Value Leads, whatever the Positive Contact
    threshold; their engagement term is at its cap 0.4, and their score,
    when some message is classified and the count of positive messages
    is not negative, is at least 0.55. *)
Theorem vip_contact_is_a_high_value_lead
  (message_count : Z) (avg_sentiment : Q) :
  Custom._categorize_contact message_count avg_sentiment
  = Some "VIP Contact"%string ->
  (forall positive_threshold : Q,
      _categorize_contact positive_threshold message_count avg_sentiment
      = HighValueLead) /\
  message_score message_count == 0.4 /\
  (forall positive negative : Z,
      (0 <= positive)%Z -> (0 < positive + negative)%Z ->
      exists v : Q,
        _calculate_lead_score message_count avg_sentiment positive negative
        = Py.Ok v /\
        0.55 <= v).
Proof.
  unfold Custom._categorize_contact. intros H.
  destruct (Z.ltb_spec 100 message_count) as [Hm | _]; [| discriminate].
  destruct (py_ltb_spec 0.5 avg_sentiment) as [Hs | _]; [| discriminate].
  clear H. split; [| split].
  - intros t. apply categorize_high_value; [lia | lra].
  - apply message_score_from_40. lia.
  - intros p n Hp Hd.
    rewrite _calculate_lead_score_ok by lia.
    eexists. split; [reflexivity |].
    pose proof (message_score_from_40 message_count ltac:(lia)) as M.
    pose proof (positive_ratio_nonneg p n Hp Hd) as R.
    assert (S : 0.15 < sentiment_score avg_sentiment).
    { unfold sentiment_score, Py.max. rewrite py_ltb_true by lra. lra. }
    unfold Py.min.
    destruct (py_ltb_spec 1.0
                (message_score message_count + sentiment_score avg_sentiment
                 + inject_Z p / inject_Z (p + n) * 0.3)); lra.
Qed.

Lemma vip_contact_is_a_high_value_lead_witness :
  _categorize_contact 0.5 120 0.9 = HighValueLead /\
  message_score 120 == 0.4 /\
  exists v : Q, _calculate_lead_score 120 0.9 0 1 = Py.Ok v /\ 0.55 <= v.
Proof.
  destruct (vip_contact_is_a_high_value_lead 120 0.9) as (Hc & Hm & Hv).
  - reflexivity.
  - split; [apply Hc | split; [exact Hm |]].
    apply Hv; lia.
Defined.

(** With rounding the bound is attained: in binary64, for 101 messages,
    none of them positive, and the least average sentiment above 0.5, the
    score is 0.55 itself. *)
Lemma binary64_vip_score_at_the_bound :
  (0.5 <? 0.50000000000000011)%float = true /\
  Binary64._calculate_lead_score 101 0.50000000000000011 0 1
  = Py.Ok 0.55%float.
Proof. split; vm_compute; reflexivity. Qed.

(** ** The event stream of the test notebook *)

Lemma prefix_app (needle rest : string) :
  prefix needle (needle ++ rest) = true.
Proof.
  induction needle as [| c needle IH]; simpl.
  - destruct rest; reflexivity.
  - destruct (ascii_dec c c) as [_ | N]; [exact IH | contradiction].
Qed.

Lemma prefix_split (needle s : string) :
  prefix needle s = true ->
  s = (needle ++ Notebook.slice_from (String.length needle) s)%string.
Proof.
  revert s. induction needle as [| c needle IH]; intros s H; simpl.
  - reflexivity.
  - destruct s as [| d s]; simpl in H; [discriminate |].
    destruct (ascii_dec c d) as [-> | _]; [| discriminate].
    f_equal. apply IH, H.
Qed.

(** The lines the notebook reads as events are exactly the lines
    "data: " followed by a text, and that text is what it hands to
    [json.loads]: the slice index 6 is the length of the prefix. *)
Theorem event_json_strips_the_data_prefix (line_str payload : string) :
  Notebook.event_json line_str = Some payload
  <-> line_str = ("data: " ++ payload)%string.
Proof.
  unfold Notebook.event_json. split.
  - destruct (String.eqb line_str ""); [discriminate |].
    destruct (prefix "data: " line_str) eqn:E; [| discriminate].
    intros [= <-]. apply (prefix_split "data: " line_str E).
  - intros ->. cbn [append String.eqb Ascii.eqb Bool.eqb].
    change (String "d" (String "a" (String "t" (String "a"
              (String ":" (String " " payload))))))
      with ("data: " ++ payload)%string.
    rewrite prefix_app. reflexivity.
Qed.

(** ** The BD analytics agent in full *)

Lemma string_app_assoc (a b c : string) :
  ((a ++ b) ++ c = a ++ (b ++ c))%string.
Proof. induction a as [| x a IH]; simpl; [reflexivity | now rewrite IH]. Qed.

Lemma string_app_nil_r (a : string) : (a ++ "" = a)%string.
Proof. induction a as [| x a IH]; simpl; [reflexivity | now rewrite IH]. Qed.

Section AgentProperties.

Import Agent.

Variable float_str : float -> string.

Lemma py_str_cases (v : pyval) :
  (too_long v = true /\ py_str float_str v = None) \/
  (too_long v = false /\ py_str float_str v = Some (text float_str v)).
Proof.
  unfold text. destruct v as [| s | z | x]; cbn [py_str too_long];
    try (right; split; reflexivity).
  destruct (10 ^ int_max_str_digits <=? Z.abs z)%Z;
    [left | right]; split; reflexivity.
Qed.

Lemma add_field_printable (response before : string) (v : pyval)
  (after : string) :
  too_long v = false ->
  add_field float_str response before v after
  = Some (response ++ before ++ text float_str v ++ after)%string.
Proof.
  intros H. unfold add_field.
  destruct (py_str_cases v) as [[E _] | [_ ->]]; [congruence | reflexivity].
Qed.

Lemma add_field_too_long (response before : string) (v : pyval)
  (after : string) :
  too_long v = true ->
  add_field float_str response before v after = None.
Proof.
  intros H. unfold add_field.
  destruct (py_str_cases v) as [[_ ->] | [E _]]; [reflexivity | congruence].
Qed.

(** The subscript of the loop is guarded by the test before it: it never
    raises [KeyError]. *)
Lemma guarded_subscript (contact : dict) :
  truthy (get "last_interaction" contact) = true ->
  subscript "last_interaction" contact
  = Some (get "last_interaction" contact).
Proof.
  unfold subscript, get, get_default.
  destruct (dict_get "last_interaction" contact) as [v |];
    [reflexivity | discriminate].
Qed.

(** One pass of the loop appends the lines of the contact, unless one of
    the values it shows cannot be converted. *)
Lemma append_contact_lines (response : string) (contact : dict) :
  append_contact float_str response contact
  = if unprintable contact then None
    else Some (response ++ contact_lines float_str contact)%string.
Proof.
  unfold append_contact, unprintable, shown_values, contact_lines.
  cbn [existsb app].
  destruct (too_long (get_default "name" (PyStr "Unknown") contact)) eqn:E1.
  { rewrite add_field_too_long by exact E1. reflexivity. }
  rewrite add_field_printable by exact E1. cbn [and_then orb].
  destruct (too_long (get_default "organization" (PyStr "No org") contact))
    eqn:E2.
  { rewrite add_field_too_long by exact E2. reflexivity. }
  rewrite add_field_printable by exact E2. cbn [and_then orb].
  destruct (too_long (get_default "lead_score" (PyInt 0) contact)) eqn:E3.
  { rewrite add_field_too_long by exact E3. reflexivity. }
  rewrite add_field_printable by exact E3. cbn [and_then orb].
  destruct (truthy (get "last_interaction" contact)) eqn:T.
  - rewrite guarded_subscript by exact T. cbn [and_then existsb orb].
    destruct (too_long (get "last_interaction" contact)) eqn:E4.
    + rewrite add_field_too_long by exact E4. reflexivity.
    + rewrite add_field_printable by exact E4. cbn [orb]. f_equal.
      rewrite ?string_app_assoc. reflexivity.
  - cbn [existsb]. f_equal.
    rewrite ?string_app_assoc, ?string_app_nil_r. reflexivity.
Qed.

Lemma for_each_lines (contacts : list dict) (response : string) :
  for_each float_str contacts response
  = if existsb unprintable contacts then None
    else Some (response
               ++ String.concat "" (map (contact_lines float_str) contacts))%string.
Proof.
  revert response. induction contacts as [| c rest IH]; intros response.
  - simpl. now rewrite string_app_nil_r.
  - cbn [for_each existsb]. rewrite append_contact_lines.
    destruct (unprintable c); [reflexivity |].
    rewrite IH. cbn [orb].
    destruct (existsb unprintable rest); [reflexivity |].
    f_equal. rewrite string_app_assoc. f_equal.
    destruct rest; simpl; [now rewrite string_app_nil_r | reflexivity].
Qed.

(** The hot-leads response raises no [KeyError], whatever keys the
    contact records hold ([contact['last_interaction']] is read only when
    [contact.get('last_interaction')] is truthy).  It raises exactly when
    one of the values it shows for one of the first five contacts is an
    integer of more than 4300 digits, which Python refuses to convert;
    otherwise it is the heading followed by the lines of the first five
    contacts, in order.  The contacts after the fifth have no part in
    it, nor in whether it raises. *)
Theorem hot_leads_response_shows_the_first_five (contacts : list dict) :
  (forall contact : dict,
      In contact contacts ->
      truthy (get "last_interaction" contact) = true ->
      subscript "last_interaction" contact
      = Some (get "last_interaction" contact)) /\
  (Agent._format_hot_leads_response float_str contacts = None
   <-> existsb unprintable (firstn 5 contacts) = true) /\
  Agent._format_hot_leads_response float_str contacts
  = Agent._format_hot_leads_response float_str (firstn 5 contacts) /\
  (contacts <> [] ->
   existsb unprintable (firstn 5 contacts) = false ->
   Agent._format_hot_leads_response float_str contacts
   = Some ("🔥 **Hot Leads (Score 70+):**" ++ nl ++ nl
           ++ String.concat "" (map (contact_lines float_str)
                                    (firstn 5 contacts)))%string).
Proof.
  assert (Hform : forall c rest,
             Agent._format_hot_leads_response float_str (c :: rest)
             = if existsb unprintable (firstn 5 (c :: rest)) then None
               else Some ("🔥 **Hot Leads (Score 70+):**" ++ nl ++ nl
                          ++ String.concat "" (map (contact_lines float_str)
                                                   (firstn 5 (c :: rest))))%string).
  { intros c rest. unfold Agent._format_hot_leads_response.
    rewrite for_each_lines.
    destruct (existsb unprintable (firstn 5 (c :: rest))); [reflexivity |].
    rewrite !string_app_assoc. reflexivity. }
  split; [intros contact _; apply guarded_subscript |].
  destruct contacts as [| c rest].
  - split; [| split]; [| reflexivity | intros H; contradiction].
    simpl. split; discriminate.
  - split; [| split].
    + rewrite Hform.
      destruct (existsb unprintable (firstn 5 (c :: rest)));
        split; intros H; try reflexivity; discriminate.
    + change (firstn 5 (c :: rest)) with (c :: firstn 4 rest).
      rewrite !Hform.
      change (c :: firstn 4 rest) with (firstn 5 (c :: rest)).
      rewrite firstn_firstn. reflexivity.
    + intros _ H. rewrite Hform, H. reflexivity.
Qed.

Variable manager : Type.
Variable get_local_db_manager : manager.
Variable search_contacts : manager -> Z -> list dict.
Variable followup_response : manager -> option string.

Lemma lower_app (a b : string) :
  lower (a ++ b) = (lower a ++ lower b)%string.
Proof. induction a as [| c a IH]; simpl; [reflexivity | now rewrite IH]. Qed.

Lemma contains_app (needle before after : string) :
  contains needle (before ++ needle ++ after) = true.
Proof.
  induction before as [| c before IH].
  - simpl append. destruct (needle ++ after)%string eqn:E;
      cbn [contains]; rewrite <- E, prefix_app; reflexivity.
  - simpl append. cbn [contains]. rewrite IH. apply orb_true_r.
Qed.

(** A query that holds the phrase "hot leads", in any casing and with any
    text around it (the phrase "follow up" included), gets the hot-leads
    response over the contacts the manager selects with the bound 70. *)
Theorem hot_leads_phrase_in_any_casing_wins
  (self : BDAnalyticsAgent manager) (before phrase after : string) :
  lower phrase = "hot leads"%string ->
  fst (process_query float_str get_local_db_manager search_contacts
         followup_response self (before ++ phrase ++ after))
  = Agent._format_hot_leads_response float_str
      (search_contacts
         (manager_of get_local_db_manager
            (ensure_initialized get_local_db_manager self)) 70).
Proof.
  intros H. unfold process_query.
  rewrite !lower_app, H, contains_app. reflexivity.
Qed.

(** After any query the agent holds a database manager: the one it had,
    or a fresh one when it had none; so a second query never initialises
    again, and leaves the agent as the first one left it. *)
Theorem process_query_initialises_once
  (self : BDAnalyticsAgent manager) (query query' : string) :
  db_manager
    (snd (process_query float_str get_local_db_manager search_contacts
            followup_response self query))
  = Some (manager_of get_local_db_manager self) /\
  snd (process_query float_str get_local_db_manager search_contacts
         followup_response
         (snd (process_query float_str get_local_db_manager search_contacts
                 followup_response self query))
         query')
  = snd (process_query float_str get_local_db_manager search_contacts
           followup_response self query).
Proof.
  assert (H : forall a q,
             snd (process_query float_str get_local_db_manager search_contacts
                    followup_response a q)
             = ensure_initialized get_local_db_manager a).
  { intros a q. unfold process_query.
    destruct (contains "hot leads" (lower q)); [reflexivity |].
    destruct (contains "follow up" (lower q)); reflexivity. }
  rewrite !H. unfold ensure_initialized, manager_of.
  destruct (db_manager self) as [m |] eqn:E; cbn; rewrite ?E; split; reflexivity.
Qed.

(** None of the five test queries of the guide ("Who are my hottest leads
    this week?", "Which contacts need follow-up?", ...) holds the phrase
    "hot leads" or "follow up": each is answered by the fallback
    "Processing BD query: ..." and reaches no handler. *)
Theorem guide_test_queries_reach_no_handler
  (self : BDAnalyticsAgent manager) :
  Forall (fun query =>
            fst (process_query float_str get_local_db_manager
                   search_contacts followup_response self query)
            = Some ("Processing BD query: " ++ query)%string)
         guide_test_queries.
Proof. repeat constructor. Qed.

End AgentProperties.

Lemma hot_leads_phrase_in_any_casing_wins_witness :
  fst (Agent.process_query (fun _ => "float"%string) tt (fun _ _ => [])
         (fun _ => None) (Agent.init unit)
         ("Any follow up on my " ++ "HOT Leads" ++ " today?"))
  = Some "No hot leads found at this time."%string.
Proof.
  apply (hot_leads_phrase_in_any_casing_wins (fun _ => "float"%string) unit tt
           (fun _ _ => []) (fun _ => None) (Agent.init unit)
           "Any follow up on my " "HOT Leads" " today?").
  reflexivity.
Defined.

(** The integers that are shown are those strictly between -10^4300 and
    10^4300. *)
Lemma too_long_int (z : Z) :
  Agent.too_long (Agent.PyInt z) = false
  <-> (- 10 ^ Agent.int_max_str_digits < z < 10 ^ Agent.int_max_str_digits)%Z.
Proof.
  cbv beta iota delta [Agent.too_long]. rewrite Z.leb_gt. apply Z.abs_lt.
Qed.

Lemma two_digits_are_not_too_long (z : Z) :
  (-100 < z < 100)%Z -> Agent.too_long (Agent.PyInt z) = false.
Proof.
  intros H. apply too_long_int.
  assert (Hb : (10 ^ 2 <= 10 ^ Agent.int_max_str_digits)%Z).
  { apply Z.pow_le_mono_r; [lia |]. unfold Agent.int_max_str_digits. lia. }
  assert (E : (10 ^ 2 = 100)%Z) by reflexivity.
  rewrite E in Hb. clear E.
  revert Hb. generalize (10 ^ Agent.int_max_str_digits)%Z. intros b Hb. lia.
Qed.

Lemma sample_hot_lead_printable :
  Agent.unprintable Agent.sample_hot_lead = false.
Proof.
  change (Agent.unprintable Agent.sample_hot_lead)
    with (false || (false || (Agent.too_long (Agent.PyInt 85) || false))).
  rewrite two_digits_are_not_too_long by lia. reflexivity.
Qed.

Lemma sample_hot_lead_lines (float_str : float -> string) :
  Agent.contact_lines float_str Agent.sample_hot_lead
  = ("• **Ada** (No org) - Score: 85" ++ Agent.nl)%string.
Proof.
  change (Agent.contact_lines float_str Agent.sample_hot_lead)
    with ("• **Ada** (No org) - Score: "
          ++ match (if Agent.too_long (Agent.PyInt 85) then None
                    else Some (NilZero.string_of_int (Z.to_int 85))) with
             | Some s => s
             | None => ""%string
             end ++ Agent.nl)%string.
  rewrite two_digits_are_not_too_long by lia. reflexivity.
Qed.

Lemma hot_leads_response_shows_the_first_five_witness :
  Agent._format_hot_leads_response (fun _ => "float"%string)
    [Agent.sample_hot_lead]
  = Some ("🔥 **Hot Leads (Score 70+):**" ++ Agent.nl ++ Agent.nl
          ++ "• **Ada** (No org) - Score: 85" ++ Agent.nl)%string.
Proof.
  destruct (hot_leads_response_shows_the_first_five (fun _ => "float"%string)
              [Agent.sample_hot_lead])
    as (_ & _ & _ & H).
  rewrite H.
  - cbn [firstn map String.concat].
    rewrite sample_hot_lead_lines. reflexivity.
  - discriminate.
  - cbn [firstn existsb].
    rewrite sample_hot_lead_printable. reflexivity.
Defined.


(** ** The startup script *)

Section StartupProperties.

Import Startup.

Lemma missing_loop_filter (env : environment) (vars missing : list string) :
  fold_left
    (fun missing var =>
       if is_empty (expand var env) then (missing ++ [var])%list else missing)
    vars missing
  = missing ++ filter (fun var => is_empty (expand var env)) vars.
Proof.
  revert missing. induction vars as [| v vars IH]; intros missing; simpl.
  - now rewrite app_nil_r.
  - rewrite IH. destruct (is_empty (expand v env)).
    + now rewrite <- app_assoc.
    + reflexivity.
Qed.

Lemma is_empty_spec (s : string) : is_empty s = true <-> s = ""%string.
Proof. unfold is_empty. apply String.eqb_eq. Qed.

Lemma filter_nil_iff {A : Type} (f : A -> bool) (l : list A) :
  filter f l = [] <-> Forall (fun x => f x = false) l.
Proof.
  induction l as [| x l IH]; simpl.
  - split; [constructor | reflexivity].
  - destruct (f x) eqn:E.
    + split; [discriminate |]. intros H. inversion H; congruence.
    + rewrite IH. split.
      * intros H. constructor; assumption.
      * intros H. inversion H; assumption.
Qed.

(** The check of the required variables: the variables reported missing
    are the required ones that are unset or empty, in the order of
    [required_vars]; the check passes exactly when each of the four has a
    value that is not empty. *)
Theorem required_variables_check (env : environment) :
  missing_vars env = filter (fun var => is_empty (expand var env)) required_vars /\
  (missing_vars env = [] <->
   Forall (fun var => expand var env <> ""%string) required_vars).
Proof.
  assert (E : missing_vars env
              = filter (fun var => is_empty (expand var env)) required_vars)
    by (unfold missing_vars; rewrite missing_loop_filter; reflexivity).
  split; [exact E |].
  rewrite E, filter_nil_iff, !Forall_forall.
  split; intros H v Hv; specialize (H v Hv).
  - intros Hempty. apply is_empty_spec in Hempty. congruence.
  - destruct (is_empty (expand v env)) eqn:Hempty; [| reflexivity].
    apply is_empty_spec in Hempty. contradiction.
Qed.

(** A [.env] that is a copy of [env.template] (what the script itself
    writes when there is none) passes the check of the required
    variables, with the placeholders of the template as values, whatever
    the variables were before. *)
Theorem env_template_passes_the_check (before : environment) :
  missing_vars (source_assignments env_template before) = [] /\
  map (fun var => expand var (source_assignments env_template before))
    required_vars
  = [ "your_bot_token_from_botfather"; "your_api_id_here";
      "your_api_hash_here"; "+1234567890" ]%string.
Proof. split; reflexivity. Qed.

Lemma wait_rounds_found (poll : nat -> bool) (first count i : nat) :
  (first <= i < first + count)%nat ->
  (first + count <= 31)%nat ->
  poll i = true ->
  (forall j : nat, (first <= j < i)%nat -> poll j = false) ->
  wait_rounds poll (List.seq first count) = (repeat Sleep (i - first), None).
Proof.
  revert first. induction count as [| count IH]; intros first Hi Hb Hp Hf.
  - lia.
  - cbn [List.seq wait_rounds].
    destruct (Nat.eq_dec first i) as [-> | N].
    + rewrite Hp, Nat.sub_diag. reflexivity.
    + rewrite (Hf first) by lia.
      rewrite (proj2 (Nat.eqb_neq first 30)) by lia.
      rewrite (IH (S first)); [| lia | lia | exact Hp | intros j Hj; apply Hf; lia].
      replace (i - first)%nat with (S (i - S first)) by lia. reflexivity.
Qed.

Lemma wait_rounds_gave_up (poll : nat -> bool) (first count : nat) :
  (first + count = 31)%nat -> (1 <= count)%nat ->
  (forall j : nat, (first <= j <= 30)%nat -> poll j = false) ->
  wait_rounds poll (List.seq first count) = (repeat Sleep (count - 1), Some 1%nat).
Proof.
  revert first. induction count as [| count IH]; intros first Hb Hc Hf.
  - lia.
  - cbn [List.seq wait_rounds]. rewrite (Hf first) by lia.
    destruct (Nat.eq_dec first 30) as [-> | N].
    + assert (count = 0)%nat as -> by lia. reflexivity.
    + rewrite (proj2 (Nat.eqb_neq first 30)) by exact N.
      rewrite (IH (S first)); [| lia | lia | intros j Hj; apply Hf; lia].
      replace (S count - 1)%nat with (S (count - 1)) by lia. reflexivity.
Qed.

(** The wait for the server: when round [i] is the first of the thirty
    whose poll succeeds, the loop ends there after [i - 1] sleeps and the
    script goes on; when none of the thirty succeeds, the script exits
    with status 1 after 29 sleeps (the thirtieth failure exits before its
    sleep). *)
Theorem wait_for_server_rounds (poll : nat -> bool) :
  (forall i : nat,
      (1 <= i <= 30)%nat -> poll i = true ->
      (forall j : nat, (1 <= j < i)%nat -> poll j = false) ->
      wait_for_server poll = (repeat Sleep (i - 1), None)) /\
  ((forall i : nat, (1 <= i <= 30)%nat -> poll i = false) ->
   wait_for_server poll = (repeat Sleep 29, Some 1%nat)).
Proof.
  split.
  - intros i Hi Hp Hf. unfold wait_for_server.
    apply wait_rounds_found; [lia | lia | exact Hp | exact Hf].
  - intros Hf. unfold wait_for_server.
    apply (wait_rounds_gave_up poll 1 30); [lia | lia | exact Hf].
Qed.

Lemma seq_status (first second : sh) :
  snd (first ;;; second) = None <-> snd first = None /\ snd second = None.
Proof.
  destruct first as [done [status |]]; simpl.
  - split; [discriminate | intros [H _]; discriminate].
  - split; [intros H; split; [reflexivity | exact H] | intros [_ H]; exact H].
Qed.

Lemma seq_actions (a : action) (first second : sh) :
  In a (fst (first ;;; second))
  <-> In a (fst first) \/ (snd first = None /\ In a (fst second)).
Proof.
  destruct first as [done [status |]]; simpl.
  - split; [intros H; left; exact H | intros [H | [H _]]; [exact H | discriminate]].
  - rewrite in_app_iff. split.
    + intros [H | H]; [left; exact H | right; split; [reflexivity | exact H]].
    + intros [H | [_ H]]; [left; exact H | right; exact H].
Qed.

Lemma wait_rounds_sleeps (poll : nat -> bool) (rounds : list nat) (a : action) :
  In a (fst (wait_rounds poll rounds)) -> a = Sleep.
Proof.
  induction rounds as [| i rest IH]; cbn [wait_rounds].
  - intros [].
  - destruct (poll i); [intros [] |].
    destruct (i =? 30)%nat; [intros [] |].
    rewrite seq_actions. intros [[H | []] | [_ H]]; [congruence | apply IH, H].
Qed.

Lemma wait_rounds_status (poll : nat -> bool) (first count : nat) :
  (first + count = 31)%nat -> (1 <= count)%nat ->
  snd (wait_rounds poll (List.seq first count)) = None
  <-> exists i : nat, (first <= i <= 30)%nat /\ poll i = true.
Proof.
  revert first. induction count as [| count IH]; intros first Hb Hc; [lia |].
  cbn [List.seq wait_rounds].
  destruct (poll first) eqn:Hp.
  - split; [intros _; exists first; split; [lia | exact Hp] | reflexivity].
  - destruct (Nat.eq_dec first 30) as [-> | N].
    + simpl. split; [discriminate |].
      intros (i & Hi & Hpi). assert (i = 30)%nat by lia. congruence.
    + rewrite (proj2 (Nat.eqb_neq first 30)) by exact N.
      rewrite seq_status, (IH (S first)) by lia.
      split.
      * intros [_ (i & Hi & Hpi)]. exists i. split; [lia | exact Hpi].
      * intros (i & Hi & Hpi). split; [reflexivity |].
        exists i. split; [| exact Hpi].
        destruct (Nat.eq_dec i first); [congruence | lia].
Qed.

Lemma run_e_status (a : action) (status : nat) :
  snd (run_e a status) = None <-> status = 0%nat.
Proof.
  unfold run_e. simpl. destruct (Nat.eqb_spec status 0); split; congruence.
Qed.

Lemma seq_assoc (a b c : sh) : (a ;;; b) ;;; c = a ;;; (b ;;; c).
Proof.
  destruct a as [da [sa |]]; [reflexivity |].
  destruct b as [db [sb |]]; simpl; [reflexivity |].
  destruct c as [dc sc]; simpl. now rewrite app_assoc.
Qed.

Lemma commands_preparation (w : world) :
  commands w
  = preparation w ;;; run_e RunBot (bot_status w) ;;; run TrapSignals.
Proof. unfold commands, preparation. rewrite !seq_assoc. reflexivity. Qed.

Lemma guard_exit (b : bool) (status : nat) :
  snd (if b then skip else exit status) = None <-> b = true.
Proof. destruct b; simpl; split; congruence. Qed.

Lemma guard_copy_exit (b : bool) (a : action) (copied status : nat) :
  snd (if b then skip else run_e a copied ;;; exit status) = None <-> b = true.
Proof.
  destruct b; [simpl; split; congruence |].
  rewrite seq_status. simpl. split; [intros [_ H]; discriminate | discriminate].
Qed.

Lemma guard_run_e (b : bool) (a : action) (status : nat) :
  snd (if b then skip else run_e a status) = None
  <-> b = true \/ status = 0%nat.
Proof.
  destruct b; [simpl; split; [left; reflexivity | reflexivity] |].
  rewrite run_e_status. split; [right; assumption | intros [H | H]; congruence].
Qed.

Lemma guard_server (b : bool) (poll : nat -> bool) :
  snd (if b then skip else run ServeOllama ;;; wait_for_server poll) = None
  <-> b = true \/ exists i : nat, (1 <= i <= 30)%nat /\ poll i = true.
Proof.
  destruct b; [simpl; split; [left; reflexivity | reflexivity] |].
  rewrite seq_status. unfold wait_for_server.
  rewrite (wait_rounds_status poll 1 30) by lia. simpl.
  split; [intros [_ H]; right; exact H | intros [H | H]; [discriminate | auto]].
Qed.

Lemma guard_missing (missing : list string) :
  snd (match missing with [] => skip | _ :: _ => exit 1 end) = None
  <-> missing = [].
Proof. destruct missing; simpl; split; congruence. Qed.

Lemma preparation_status (w : world) :
  snd (preparation w) = None <-> ready w.
Proof.
  unfold preparation, ready.
  rewrite !seq_status, !guard_exit, guard_copy_exit, guard_server,
    !guard_run_e, guard_missing, !run_e_status.
  rewrite (proj2 (required_variables_check (env w))).
  cbn [snd run]. tauto.
Qed.

Lemma seq_all (P : action -> Prop) (first second : sh) :
  (forall a : action, In a (fst first) -> P a) ->
  (forall a : action, In a (fst second) -> P a) ->
  forall a : action, In a (fst (first ;;; second)) -> P a.
Proof.
  intros H1 H2 a. rewrite seq_actions. intros [H | [_ H]]; auto.
Qed.

Ltac leaf_actions :=
  let a := fresh "a" in
  let H := fresh "H" in
  intros a H;
  repeat match type of H with
         | context [if ?b then _ else _] => destruct b
         | context [match ?l with [] => _ | _ :: _ => _ end] => destruct l
         end;
  cbn [fst skip exit run run_e In] in H;
  repeat match type of H with
         | _ \/ _ => destruct H as [H | H]
         | False => destruct H
         end;
  subst; split; discriminate.

(** The actions of the preparation: the bot and the signal handlers are
    not among them. *)
Lemma preparation_actions (w : world) (a : action) :
  In a (fst (preparation w)) -> a <> RunBot /\ a <> TrapSignals.
Proof.
  revert a. unfold preparation.
  repeat (apply seq_all; [try leaf_actions |]); try leaf_actions.
  - destruct (has_env_file w); [leaf_actions |].
    apply seq_all; leaf_actions.
  - destruct (server_answers w); [leaf_actions |].
    apply seq_all; [leaf_actions |].
    intros a H. apply wait_rounds_sleeps in H. subst. split; discriminate.
Qed.

(** The two shapes of a run: the preparation exits, or it is followed by
    the bot and, when the bot succeeds, by [trap] and [wait]. *)
Lemma startup_shape (w : world) :
  match snd (preparation w) with
  | Some status => startup w = (fst (preparation w), Exits status)
  | None =>
      startup w
      = ((fst (preparation w)
          ++ RunBot
             :: (if (bot_status w =? 0)%nat then [TrapSignals; WaitJobs]
                 else []))%list,
         if (bot_status w =? 0)%nat then wait w else Exits (bot_status w))
  end.
Proof.
  unfold startup. rewrite commands_preparation.
  destruct (preparation w) as [done [status |]]; [reflexivity |].
  unfold run_e. destruct (bot_status w =? 0)%nat; cbn.
  - rewrite <- app_assoc. reflexivity.
  - reflexivity.
Qed.

Lemma startup_when_ready (w : world) :
  ready w ->
  startup w
  = ((fst (preparation w)
      ++ RunBot
         :: (if (bot_status w =? 0)%nat then [TrapSignals; WaitJobs]
             else []))%list,
     if (bot_status w =? 0)%nat then wait w else Exits (bot_status w)).
Proof.
  intros H. apply preparation_status in H.
  pose proof (startup_shape w) as S. rewrite H in S. exact S.
Qed.

Lemma startup_when_not_ready (w : world) :
  ~ ready w ->
  exists status : nat,
    snd (preparation w) = Some status /\
    startup w = (fst (preparation w), Exits status).
Proof.
  intros H. pose proof (startup_shape w) as S.
  destruct (snd (preparation w)) as [status |] eqn:E.
  - exists status. split; [reflexivity | exact S].
  - apply preparation_status in E. contradiction.
Qed.

Lemma ready_dec (w : world) : ready w \/ ~ ready w.
Proof.
  destruct (snd (preparation w)) as [status |] eqn:E.
  - right. intros H. apply preparation_status in H. congruence.
  - left. apply preparation_status. exact E.
Qed.

(** The bot is started exactly when every guard of the script passes:
    the two files are there, [.env] is sourced, the four required
    variables are not empty, Ollama is installed and its server answers
    (at once, or in one of the thirty rounds after the script starts it),
    the model is listed or pulled, the connection test passes, and the
    virtual environment, the two [pip] commands and [mkdir] succeed.  The
    result of the feature tests has no part in it. *)
Theorem bot_starts_exactly_when_ready (w : world) :
  In RunBot (fst (startup w)) <-> ready w.
Proof.
  split.
  - intros H. destruct (ready_dec w) as [Hr | Hn]; [exact Hr |].
    destruct (startup_when_not_ready w Hn) as (status & _ & E).
    rewrite E in H. cbn [fst] in H.
    apply preparation_actions in H. destruct H as [H _]. contradiction.
  - intros H. rewrite (startup_when_ready w H). cbn [fst].
    apply in_or_app. right. left. reflexivity.
Qed.

Lemma seq_exit_nonzero (first second : sh) :
  snd first <> Some 0%nat -> snd second <> Some 0%nat ->
  snd (first ;;; second) <> Some 0%nat.
Proof. destruct first as [done [status |]]; simpl; auto. Qed.

Lemma run_e_exit_nonzero (a : action) (status : nat) :
  snd (run_e a status) <> Some 0%nat.
Proof.
  unfold run_e. simpl. destruct (Nat.eqb_spec status 0); congruence.
Qed.

Lemma wait_rounds_exit_nonzero (poll : nat -> bool) (rounds : list nat) :
  snd (wait_rounds poll rounds) <> Some 0%nat.
Proof.
  induction rounds as [| i rest IH]; cbn [wait_rounds]; [discriminate |].
  destruct (poll i); [discriminate |].
  destruct (i =? 30)%nat; [discriminate |].
  apply seq_exit_nonzero; [discriminate | exact IH].
Qed.

Ltac leaf_exit :=
  repeat match goal with
         | |- context [if ?b then _ else _] => destruct b
         | |- context [match ?l with [] => _ | _ :: _ => _ end] => destruct l
         end;
  first [ apply run_e_exit_nonzero | discriminate ].

Lemma preparation_exit_nonzero (w : world) :
  snd (preparation w) <> Some 0%nat.
Proof.
  unfold preparation.
  repeat (apply seq_exit_nonzero; [try leaf_exit |]); try leaf_exit.
  - destruct (has_env_file w); [discriminate |].
    apply seq_exit_nonzero; [apply run_e_exit_nonzero | discriminate].
  - destruct (server_answers w); [discriminate |].
    apply seq_exit_nonzero; [discriminate | apply wait_rounds_exit_nonzero].
Qed.

(** How the script ends.  It exits with status 0 exactly when every guard
    passes, the bot exits with status 0, and the final [wait] has nothing
    to wait for: the server was answering before the script, or the
    server the script started ends.  It stays in its final [wait], with
    no exit, exactly when every guard passes, the bot exits with status
    0, and the script started a server that does not end.  When every
    guard passes and the bot fails, the status of the bot is the status
    of the script. *)
Theorem startup_ends_well_exactly_when_the_bot_does (w : world) :
  (snd (startup w) = Exits 0
   <-> ready w /\ bot_status w = 0%nat /\
       (server_answers w = true \/ server_ends w = true)) /\
  (snd (startup w) = Blocked
   <-> ready w /\ bot_status w = 0%nat /\
       server_answers w = false /\ server_ends w = false) /\
  (ready w -> bot_status w <> 0%nat ->
   snd (startup w) = Exits (bot_status w)).
Proof.
  assert (Hwait0 : wait w = Exits 0
                   <-> server_answers w = true \/ server_ends w = true).
  { unfold wait. destruct (server_answers w), (server_ends w); cbn;
      intuition discriminate. }
  assert (Hwaitb : wait w = Blocked
                   <-> server_answers w = false /\ server_ends w = false).
  { unfold wait. destruct (server_answers w), (server_ends w); cbn;
      intuition discriminate. }
  destruct (ready_dec w) as [Hr | Hn].
  - rewrite (startup_when_ready w Hr). cbn [snd].
    destruct (Nat.eqb_spec (bot_status w) 0) as [E | N].
    + rewrite Hwait0, Hwaitb. tauto.
    + split; [| split].
      * split; [intros [= H]; contradiction | tauto].
      * split; [discriminate | tauto].
      * reflexivity.
  - destruct (startup_when_not_ready w Hn) as (status & Hs & E).
    rewrite E. cbn [snd].
    assert (status <> 0%nat).
    { intros ->. apply (preparation_exit_nonzero w). exact Hs. }
    split; [| split].
    + split; [intros [= H0]; contradiction | tauto].
    + split; [discriminate | tauto].
    + tauto.
Qed.

(** The signal handlers ([trap cleanup SIGINT SIGTERM]) are installed
    only once the bot has exited with status 0: the script runs its
    preparation, then the bot, then, if the bot succeeded, [trap] and
    [wait]; nothing before the end of the bot installs a handler. *)
Theorem signal_handlers_come_after_the_bot (w : world) :
  (In TrapSignals (fst (startup w)) <-> ready w /\ bot_status w = 0%nat) /\
  (ready w ->
   exists before : list action,
     fst (startup w)
     = before ++ RunBot
         :: (if (bot_status w =? 0)%nat then [TrapSignals; WaitJobs] else []) /\
     ~ In TrapSignals before /\ ~ In RunBot before).
Proof.
  split.
  - split.
    + intros H. destruct (ready_dec w) as [Hr | Hn].
      * split; [exact Hr |].
        rewrite (startup_when_ready w Hr) in H. cbn [fst] in H.
        apply in_app_or in H. destruct H as [H | H].
        -- apply preparation_actions in H. destruct H as [_ H]. contradiction.
        -- destruct (Nat.eqb_spec (bot_status w) 0); [assumption |].
           simpl in H. intuition discriminate.
      * destruct (startup_when_not_ready w Hn) as (status & _ & E).
        rewrite E in H. cbn [fst] in H.
        apply preparation_actions in H. destruct H as [_ H]. contradiction.
    + intros [Hr Hb]. rewrite (startup_when_ready w Hr). cbn [fst].
      apply in_or_app. right. rewrite Hb. simpl. auto.
  - intros Hr. exists (fst (preparation w)).
    split; [| split].
    + rewrite (startup_when_ready w Hr). reflexivity.
    + intros H. apply preparation_actions in H. destruct H as [_ H]. contradiction.
    + intros H. apply preparation_actions in H. destruct H as [H _]. contradiction.
Qed.

End StartupProperties.

Lemma sample_world_ready : Startup.ready Startup.sample_world.
Proof. apply preparation_status. reflexivity. Qed.

Lemma wait_for_server_rounds_witness :
  Startup.wait_for_server (fun i => (3 <=? i)%nat)
  = (repeat Startup.Sleep 2, None) /\
  Startup.wait_for_server (fun _ => false)
  = (repeat Startup.Sleep 29, Some 1%nat).
Proof.
  destruct (wait_for_server_rounds (fun i => (3 <=? i)%nat)) as [Hfound _].
  destruct (wait_for_server_rounds (fun _ => false)) as [_ Hnone].
  split.
  - apply (Hfound 3%nat); [lia | reflexivity |].
    intros j Hj. apply Nat.leb_gt. lia.
  - apply Hnone. reflexivity.
Defined.

Lemma startup_ends_well_exactly_when_the_bot_does_witness :
  snd (Startup.startup Startup.sample_world) = Startup.Exits 2.
Proof.
  destruct (startup_ends_well_exactly_when_the_bot_does Startup.sample_world)
    as (_ & _ & Hfail).
  apply Hfail; [exact sample_world_ready | discriminate].
Defined.

Lemma signal_handlers_come_after_the_bot_witness :
  exists before : list Startup.action,
    fst (Startup.startup Startup.sample_world) = before ++ [Startup.RunBot] /\
    ~ In Startup.TrapSignals before /\ ~ In Startup.RunBot before.
Proof.
  destruct (signal_handlers_come_after_the_bot Startup.sample_world)
    as [_ Hshape].
  exact (Hshape sample_world_ready).
Defined.
